(** * Shallow embedding of the native hooks of SnapEnhance
    (src/native/jni/src/library.cpp): [unaryCall_hook] and [fstat_hook].

    Undefined behaviour of the C++ code (a load through a null or dangling
    pointer, a write through the null pointer, an invalid [free], a
    [std::string] built from a character array with no terminating NUL) is
    modelled as the [Fault] outcome: execution stops there, and the state
    reached so far is kept so that one can tell what did and did not happen
    before it. *)

From Stdlib Require Import ZArith Lia Ascii String.
From stdpp Require Import base gmap list.

Open Scope Z_scope.

Inductive outcome (S A : Type) : Type :=
| Ok (a : A) (s : S)
| Fault (s : S).
Arguments Ok {S A} a s.
Arguments Fault {S A} s.

(** [uintptr_t] / [size_t] arithmetic on a 64-bit target. *)
Definition uptr_add (a b : Z) : Z := (a + b) mod 2 ^ 64.
Definition uptr_sub (a b : Z) : Z := (a - b) mod 2 ^ 64.

Module UnaryCall.

(** The part of gRPC's slice buffer the hook uses ([grpc.h]): a pointer to
    the reference-counted block, the payload pointer and the payload length. *)
Record slice_buffer_t := mk_slice_buffer {
  ref_counter : Z;
  data : Z;
  length : Z
}.

(** The Java object returned by [NativeLib.onNativeUnaryCall]: its boolean
    field [canceled] and its byte-array field [buffer] ([None] = null). *)
Record NativeRequestData := mk_request_data {
  canceled : bool;
  buffer : option (list Z)
}.

(** Observable actions of the hook, in the order they happen. *)
Inductive event :=
| ev_read_payload (addr len : Z)
| ev_on_unary_call (uri : string) (payload : list Z)
| ev_malloc (size result : Z)
| ev_free (addr : Z)
| ev_original (buffer_ptr : Z).

(** Process memory as the hook sees it: the [grpc_byte_buffer *] cell that
    [buffer_ptr] points to, the [slice_buffer] field of each
    [grpc_byte_buffer], the slice buffers, the byte heap, the live [malloc]
    blocks (base -> size), the allocator, and the function-local static
    [ref_counter_struct_size] ([None] until its initialiser has run). *)
Record state := mk_state {
  cells : gmap Z Z;
  byte_buffers : gmap Z Z;
  slice_buffers : gmap Z slice_buffer_t;
  heap : gmap Z Z;
  blocks : gmap Z Z;
  next_block : Z;
  malloc_fails : bool;
  ref_counter_struct_size : option Z;
  trace : list event
}.

Definition with_slice_buffers (s : state) v : state :=
  mk_state (cells s) (byte_buffers s) v (heap s) (blocks s) (next_block s)
    (malloc_fails s) (ref_counter_struct_size s) (trace s).
Definition with_heap (s : state) v : state :=
  mk_state (cells s) (byte_buffers s) (slice_buffers s) v (blocks s) (next_block s)
    (malloc_fails s) (ref_counter_struct_size s) (trace s).
Definition with_blocks (s : state) v nb : state :=
  mk_state (cells s) (byte_buffers s) (slice_buffers s) (heap s) v nb
    (malloc_fails s) (ref_counter_struct_size s) (trace s).
Definition with_static (s : state) v : state :=
  mk_state (cells s) (byte_buffers s) (slice_buffers s) (heap s) (blocks s) (next_block s)
    (malloc_fails s) (Some v) (trace s).
Definition add_event (s : state) (e : event) : state :=
  mk_state (cells s) (byte_buffers s) (slice_buffers s) (heap s) (blocks s) (next_block s)
    (malloc_fails s) (ref_counter_struct_size s) (trace s ++ [e]).

(** The hook's computations: state passing with a fault exit. *)
Definition M (A : Type) : Type := state -> outcome state A.

Global Instance M_ret : MRet M := fun A a s => Ok a s.
Global Instance M_bind : MBind M := fun A B f m s =>
  match m s with
  | Ok a s' => f a s'
  | Fault s' => Fault s'
  end.

Definition fault {A} : M A := fun s => Fault s.
Definition emit (e : event) : M unit := fun s => Ok tt (add_event s e).

(** [*buffer_ptr] *)
Definition load_cell (p : Z) : M Z := fun s =>
  if p =? 0 then Fault s else
  match cells s !! p with Some v => Ok v s | None => Fault s end.

(** [bb->slice_buffer] *)
Definition load_byte_buffer (p : Z) : M Z := fun s =>
  if p =? 0 then Fault s else
  match byte_buffers s !! p with Some v => Ok v s | None => Fault s end.

(** [*slice_buffer] *)
Definition load_slice_buffer (p : Z) : M slice_buffer_t := fun s =>
  if p =? 0 then Fault s else
  match slice_buffers s !! p with Some v => Ok v s | None => Fault s end.

Definition store_slice_buffer (p : Z) (v : slice_buffer_t) : M unit := fun s =>
  if p =? 0 then Fault s else
  match slice_buffers s !! p with
  | Some _ => Ok tt (with_slice_buffers s (<[p := v]> (slice_buffers s)))
  | None => Fault s
  end.

Fixpoint read_range (h : gmap Z Z) (a : Z) (n : nat) : option (list Z) :=
  match n with
  | O => Some []
  | S n' =>
      match h !! a, read_range h (a + 1) n' with
      | Some b, Some l => Some (b :: l)
      | _, _ => None
      end
  end.

Fixpoint write_range (h : gmap Z Z) (a : Z) (l : list Z) : gmap Z Z :=
  match l with
  | [] => h
  | b :: l' => write_range (<[a := b]> h) (a + 1) l'
  end.

(** Reading [n] bytes at [a]; a non-empty access through the null pointer
    or to bytes that are not there faults. *)
Definition read_bytes (a n : Z) : M (list Z) := fun s =>
  if (a =? 0) && (0 <? n) then Fault s else
  match read_range (heap s) a (Z.to_nat n) with
  | Some l => Ok l s
  | None => Fault s
  end.

Definition write_bytes (a : Z) (l : list Z) : M unit := fun s =>
  if (a =? 0) && (0 <? Z.of_nat (List.length l)) then Fault s else
  Ok tt (with_heap s (write_range (heap s) a l)).

Definition memcpy (dst src n : Z) : M unit :=
  bytes ← read_bytes src n; write_bytes dst bytes.

(** [malloc]: [NULL] when the allocator fails, otherwise a fresh block. *)
Definition malloc (n : Z) : M Z := fun s =>
  if malloc_fails s then Ok 0 (add_event s (ev_malloc n 0)) else
  let p := next_block s in
  Ok p (add_event (with_blocks s (<[p := n]> (blocks s)) (p + n + 1)) (ev_malloc n p)).

(** [free]: [free(NULL)] does nothing; freeing anything but a live block is
    undefined. *)
Definition free (p : Z) : M unit := fun s =>
  if p =? 0 then Ok tt s else
  match blocks s !! p with
  | Some _ => Ok tt (add_event (with_blocks s (delete p (blocks s)) (next_block s)) (ev_free p))
  | None => Fault s
  end.

Section Hook.

(** The Java decision-maker [NativeLib.onNativeUnaryCall(uri, bytes)]
    ([None] = it returned null) and the trampoline [unaryCall_original]
    (its result may depend on the memory it is handed). *)
Variable onNativeUnaryCall : string -> list Z -> option NativeRequestData.
Variable unaryCall_original : Z -> string -> Z -> Z -> Z -> Z -> state -> Z.

Definition call_on_unary_call (uri : string) (payload : list Z)
  : M (option NativeRequestData) := fun s =>
  Ok (onNativeUnaryCall uri payload) (add_event s (ev_on_unary_call uri payload)).

Definition call_original (unk1 : Z) (uri : string) (buffer_ptr unk4 unk5 unk6 : Z)
  : M Z := fun s =>
  Ok (unaryCall_original unk1 uri buffer_ptr unk4 unk5 unk6 s)
     (add_event s (ev_original buffer_ptr)).

(** [const static auto ref_counter_struct_size = data - ref_counter;]:
    the initialiser runs on the first rewrite only. *)
Definition ref_counter_struct_size_init (slice_buffer : Z) : M Z := fun s =>
  match ref_counter_struct_size s with
  | Some v => Ok v s
  | None =>
      match load_slice_buffer slice_buffer s with
      | Ok sb s' =>
          let v := uptr_sub (data sb) (ref_counter sb) in Ok v (with_static s' v)
      | Fault s' => Fault s'
      end
  end.

Definition get_buffer (o : NativeRequestData) : M (list Z) :=
  match buffer o with Some l => mret l | None => fault end.

Definition unaryCall_hook (unk1 : Z) (uri : string) (buffer_ptr unk4 unk5 unk6 : Z)
  : M Z :=
  bb ← load_cell buffer_ptr;
  slice_buffer ← load_byte_buffer bb;
  sb ← load_slice_buffer slice_buffer;
  if ref_counter sb =? 0 then call_original unk1 uri buffer_ptr unk4 unk5 unk6 else
  sb ← load_slice_buffer slice_buffer;
  jni_buffer_array ← read_bytes (data sb) (length sb);
  _ ← emit (ev_read_payload (data sb) (length sb));
  native_request_data_object ← call_on_unary_call uri jni_buffer_array;
  match native_request_data_object with
  | None => call_original unk1 uri buffer_ptr unk4 unk5 unk6
  | Some o =>
      if canceled o then mret 0 else
      new_buffer_data ← get_buffer o;
      let new_buffer_length := Z.of_nat (List.length new_buffer_data) in
      rc_size ← ref_counter_struct_size_init slice_buffer;
      new_ref_counter ← malloc (uptr_add rc_size new_buffer_length);
      sb ← load_slice_buffer slice_buffer;
      _ ← memcpy new_ref_counter (ref_counter sb) rc_size;
      _ ← write_bytes (uptr_add new_ref_counter rc_size) new_buffer_data;
      sb ← load_slice_buffer slice_buffer;
      _ ← free (ref_counter sb);
      sb ← load_slice_buffer slice_buffer;
      _ ← store_slice_buffer slice_buffer
            (mk_slice_buffer new_ref_counter (data sb) (length sb));
      sb ← load_slice_buffer slice_buffer;
      _ ← store_slice_buffer slice_buffer
            (mk_slice_buffer (ref_counter sb) (data sb) new_buffer_length);
      sb ← load_slice_buffer slice_buffer;
      _ ← store_slice_buffer slice_buffer
            (mk_slice_buffer (ref_counter sb) (uptr_add new_ref_counter rc_size) (length sb));
      call_original unk1 uri buffer_ptr unk4 unk5 unk6
  end.

End Hook.

(** ** Concrete memories *)

(** One outgoing request: [buffer_ptr = 100] holds the byte buffer [200],
    whose slice buffer [300] has an 8-byte header at [1000] and a 3-byte
    payload at [1008]; [ref] is the slice buffer's [ref_counter] field. *)
Definition ex_state (ref : Z) (fails : bool) (static : option Z) : state :=
  mk_state {[100 := 200]} {[200 := 300]} {[300 := mk_slice_buffer ref 1008 3]}
    (write_range ∅ 1000 [1; 2; 3; 4; 5; 6; 7; 8; 9; 10; 11]) {[1000 := 11]}
    5000 fails static [].

(** A null [buffer_ptr] target: [*buffer_ptr == nullptr]. *)
Definition ex_null_state : state :=
  mk_state {[100 := 0]} ∅ ∅ ∅ ∅ 5000 false None [].

(** Two requests in one process: [buffer_ptr = 100] reaches a slice buffer
    with a 4-byte header, [buffer_ptr = 101] one with an 8-byte header. *)
Definition ex_two_requests : state :=
  mk_state {[100 := 200; 101 := 201]} {[200 := 300; 201 := 301]}
    {[300 := mk_slice_buffer 1000 1004 2; 301 := mk_slice_buffer 2000 2008 3]}
    (write_range (write_range ∅ 1000 [1; 2; 3; 4; 5; 6])
       2000 [21; 22; 23; 24; 25; 26; 27; 28; 29; 30; 31])
    {[1000 := 6; 2000 := 11]} 5000 false None [].

Definition ex_decision (r : option NativeRequestData) : string -> list Z -> option NativeRequestData :=
  fun _ _ => r.

Definition ex_rewrite : option NativeRequestData := Some (mk_request_data false (Some [42; 43])).

(** A trampoline whose result depends on the memory it sees. *)
Definition ex_original : Z -> string -> Z -> Z -> Z -> Z -> state -> Z :=
  fun _ _ _ _ _ _ s => Z.of_nat (List.length (trace s)).

End UnaryCall.

Module Fstat.

Definition NUL : ascii := Ascii.zero.

(** [native_config_t] ([config.h]), filled by [load_config]. *)
Record native_config_t := mk_config {
  disable_bitmoji : bool;
  disable_metrics : bool
}.

Inductive fs_event :=
| ev_unlink (path : list ascii)
| ev_fstat_original (fd : Z).

(** The file system as [fstat_hook] sees it: the symbolic links [readlink]
    resolves (among them [/proc/self/fd/<n>], pointing at the file behind
    descriptor [n]), the existing files, the caller's [struct stat] output
    buffer, the process-wide configuration and the observable actions. *)
Record fs_state := mk_fs_state {
  links : list (list ascii * list ascii);
  files : list (list ascii);
  stat_buf : list Z;
  native_config : native_config_t;
  fs_trace : list fs_event
}.

(** Decimal printing of [%d]. *)
Definition digit (d : Z) : ascii := ascii_of_nat (48 + Z.to_nat d).

Fixpoint dec_digits (fuel : nat) (n : Z) (acc : list ascii) : list ascii :=
  match fuel with
  | O => acc
  | S f =>
      let acc' := digit (n mod 10) :: acc in
      if n <? 10 then acc' else dec_digits f (n / 10) acc'
  end.

Definition format_d (n : Z) : list ascii :=
  if n <? 0 then "-"%char :: dec_digits 11 (- n) [] else dec_digits 11 n [].

Definition proc_fd_path (fd : Z) : list ascii :=
  list_ascii_of_string "/proc/self/fd/" ++ format_d fd.

(** Writing [src] over the start of the array [buf] (no terminator added). *)
Definition overwrite (buf src : list ascii) : list ascii :=
  firstn (List.length buf) src ++ skipn (List.length src) buf.

(** [snprintf(buf, size, ...)] with the formatted text [s]: at most
    [size - 1] characters and a terminating NUL. *)
Definition snprintf (buf : list ascii) (size : nat) (s : list ascii) : list ascii :=
  overwrite buf (firstn (size - 1) s ++ [NUL]).

(** The C string held by a character array: the characters before the first
    NUL; [None] when the array holds no NUL (a read would run past it). *)
Fixpoint c_string (buf : list ascii) : option (list ascii) :=
  match buf with
  | [] => None
  | c :: t => if ascii_dec c NUL then Some [] else option_map (cons c) (c_string t)
  end.

Fixpoint lookup_link (ls : list (list ascii * list ascii)) (p : list ascii)
  : option (list ascii) :=
  match ls with
  | [] => None
  | (k, v) :: ls' => if List.list_eq_dec ascii_dec k p then Some v else lookup_link ls' p
  end.

(** [readlink(buf, buf, sizeof buf)]: the path is read from [buf], the
    target written over its start, truncated to the array size and with no
    terminator; on failure [buf] is left as it is. *)
Definition readlink_into (s : fs_state) (buf : list ascii) : option (list ascii) :=
  match c_string buf with
  | None => None
  | Some path =>
      Some (match lookup_link (links s) path with
            | Some target => overwrite buf target
            | None => buf
            end)
  end.

Fixpoint is_prefix (p s : list ascii) : bool :=
  match p, s with
  | [], _ => true
  | c :: p', d :: s' => if ascii_dec c d then is_prefix p' s' else false
  | _ :: _, [] => false
  end.

(** [s.find(pat) != std::string::npos] *)
Fixpoint contains (s pat : list ascii) : bool :=
  is_prefix pat s || match s with [] => false | _ :: s' => contains s' pat end.

Definition metrics_marker : list ascii := list_ascii_of_string "files/blizzardv2/queues".
Definition bitmoji_marker : list ascii :=
  list_ascii_of_string "com.snap.file_manager_4_SCContent".

Definition unlink (s : fs_state) (path : list ascii) : fs_state :=
  mk_fs_state (links s)
    (List.filter (fun f => if List.list_eq_dec ascii_dec f path then false else true) (files s))
    (stat_buf s) (native_config s) (fs_trace s ++ [ev_unlink path]).

Section Hook.

(** The trampoline [fstat_original]: its result and the [struct stat] it
    writes. *)
Variable fstat_original : fs_state -> Z -> Z * list Z.

Definition fstat_hook (fd : Z) (s : fs_state) : outcome fs_state Z :=
  let name := repeat NUL 256 in
  let name := snprintf name 256 (proc_fd_path fd) in
  match readlink_into s name with
  | None => Fault s
  | Some name =>
      match c_string name with
      | None => Fault s
      | Some fileName =>
          if disable_metrics (native_config s) && contains fileName metrics_marker then
            Ok (-1) (unlink s fileName)
          else if disable_bitmoji (native_config s) && contains fileName bitmoji_marker then
            Ok (-1) s
          else
            let '(r, st) := fstat_original s fd in
            Ok r (mk_fs_state (links s) (files s) st (native_config s)
                    (fs_trace s ++ [ev_fstat_original fd]))
      end
  end.

End Hook.

(** The path the hook resolves [fd] to, [fileName]: the C string that
    [readlink] leaves in the buffer; [None] where the hook faults before it
    has one. *)
Definition resolved_name (fd : Z) (s : fs_state) : option (list ascii) :=
  match readlink_into s (snprintf (repeat NUL 256) 256 (proc_fd_path fd)) with
  | Some name => c_string name
  | None => None
  end.

(** An absolute path as [/proc/self/fd] reports it: a leading [/] and no
    NUL character. *)
Definition abs_path (p : list ascii) : bool :=
  match p with
  | c :: _ =>
      (if ascii_dec c "/"%char then true else false) &&
      forallb (fun c => if ascii_dec c NUL then false else true) p
  | [] => false
  end.

(** ** Concrete file systems *)

Definition ex_queue_file : list ascii :=
  list_ascii_of_string "/data/user/0/com.snapchat.android/files/blizzardv2/queues/q1".
Definition ex_content_file : list ascii :=
  list_ascii_of_string
    "/data/user/0/com.snapchat.android/files/com.snap.file_manager_4_SCContent/c1".

(** A 256-character absolute path containing [marker]. *)
Definition ex_long_path (marker : list ascii) : list ascii :=
  "/"%char :: marker ++ repeat "a"%char (255 - List.length marker).

(** Descriptor 7 open on [target]. *)
Definition ex_fs (cfg : native_config_t) (target : list ascii) : fs_state :=
  mk_fs_state [(proc_fd_path 7, target)] [target] [1; 2; 3] cfg [].

Definition ex_fstat_original : fs_state -> Z -> Z * list Z := fun _ _ => (0, [9; 9; 9]).

End Fstat.

(** * Initialisation and configuration: [init] and [load_config] *)

Module Native.

(** The statics [init] and [load_config] set ([None] = still null) and the
    two [DobbyHook] calls [init] may make. *)
Record process := mk_process {
  native_config : option Fstat.native_config_t;
  native_lib_object : option Z;
  fstat_hooked : bool;
  unaryCall_hooked : bool
}.

(** The library just loaded: the statics are null, nothing is hooked. *)
Definition initial_process : process := mk_process None None false false.

(** The calls Java makes into the library: [NativeLib.init] (with its
    receiver [clazz]) and [NativeLib.loadConfig] (with the two boolean
    fields of the [NativeConfig] object it is given). *)
Inductive java_call :=
| call_init (clazz : Z)
| call_load_config (disableBitmoji disableMetrics : bool).

Definition is_init (c : java_call) : bool :=
  match c with call_init _ => true | call_load_config _ _ => false end.

Section Init.

(** What [init] obtains from code outside this file: the base address
    [util::get_module("libclient.so")] reports after [util::load_library]
    (0 when the library is not loaded), the address [util::find_signature]
    returns for the unaryCall prologue (0 when the pattern is not found),
    and the contents of a freshly allocated [native_config_t]. *)
Variable client_base : Z.
Variable unaryCall_func : Z.
Variable new_native_config : Fstat.native_config_t.

(** [native_config = new native_config_t], [native_lib_object =
    NewGlobalRef(clazz)], then the early return when [libclient.so] is
    missing, the [fstat] hook, and the unaryCall hook when its signature
    is found. *)
Definition init (clazz : Z) (p : process) : process :=
  let p := mk_process (Some new_native_config) (Some clazz) (fstat_hooked p) (unaryCall_hooked p) in
  if client_base =? 0 then p else
  let p := mk_process (native_config p) (native_lib_object p) true (unaryCall_hooked p) in
  if unaryCall_func =? 0 then p else
  mk_process (native_config p) (native_lib_object p) (fstat_hooked p) true.

(** [load_config] writes both fields through [native_config]; while it is
    null (before [init]) the store faults. *)
Definition load_config (disableBitmoji disableMetrics : bool) (p : process) : option process :=
  match native_config p with
  | None => None
  | Some _ =>
      Some (mk_process (Some (Fstat.mk_config disableBitmoji disableMetrics))
              (native_lib_object p) (fstat_hooked p) (unaryCall_hooked p))
  end.

Definition step (c : java_call) (p : process) : option process :=
  match c with
  | call_init clazz => Some (init clazz p)
  | call_load_config b m => load_config b m p
  end.

(** A sequence of calls; [None] once one of them faults. *)
Fixpoint run (cs : list java_call) (p : process) : option process :=
  match cs with
  | [] => Some p
  | c :: cs' => match step c p with Some p' => run cs' p' | None => None end
  end.

End Init.

End Native.

(** * Properties of the unary-call hook *)

Module UnaryCallFacts.
Import UnaryCall.

(** ** Byte ranges *)

Lemma lookup_write_range h a l x :
  write_range h a l !! x =
  if decide (a <= x < a + Z.of_nat (List.length l)) then l !! Z.to_nat (x - a) else h !! x.
Proof.
  revert h a. induction l as [|b l IH]; intros h a; cbn [write_range List.length].
  - case_decide; [lia | reflexivity].
  - rewrite IH. destruct (decide (a = x)) as [<-|Hne].
    + rewrite decide_False by lia. rewrite decide_True by lia.
      rewrite Z.sub_diag. cbn. apply lookup_insert_eq.
    + rewrite lookup_insert_ne by done.
      destruct (decide (a + 1 <= x < a + 1 + Z.of_nat (List.length l))) as [Hin|Hout].
      * rewrite decide_True by lia.
        replace (Z.to_nat (x - a)) with (S (Z.to_nat (x - (a + 1)))) by lia.
        reflexivity.
      * rewrite decide_False by lia. reflexivity.
Qed.

Lemma read_range_length h a n l : read_range h a n = Some l -> List.length l = n.
Proof.
  revert a l. induction n as [|n IH]; intros a l H; cbn in H.
  - by injection H as <-.
  - destruct (h !! a), (read_range h (a + 1) n) eqn:E; try discriminate.
    injection H as <-. cbn. f_equal. eauto.
Qed.

Lemma read_range_ext h h' a n :
  (forall x, a <= x < a + Z.of_nat n -> h' !! x = h !! x) ->
  read_range h' a n = read_range h a n.
Proof.
  revert a. induction n as [|n IH]; intros a Hx; cbn; [done|].
  rewrite (Hx a) by lia. rewrite IH; [done|]. intros x ?. apply Hx. lia.
Qed.

Lemma read_write_range h a l :
  read_range (write_range h a l) a (List.length l) = Some l.
Proof.
  revert h a. induction l as [|b l IH]; intros h a; cbn; [done|].
  rewrite IH. rewrite lookup_write_range, decide_False by lia.
  by rewrite lookup_insert_eq.
Qed.

(** ** Monadic steps *)

Lemma bind_Ok {A B} (m : M A) (f : A -> M B) s a s' :
  m s = Ok a s' -> (m ≫= f) s = f a s'.
Proof. intros H. cbv [mbind M_bind]. by rewrite H. Qed.

Lemma bind_Fault {A B} (m : M A) (f : A -> M B) s s' :
  m s = Fault s' -> (m ≫= f) s = Fault s'.
Proof. intros H. cbv [mbind M_bind]. by rewrite H. Qed.

Lemma load_cell_Ok s p v : p <> 0 -> cells s !! p = Some v -> load_cell p s = Ok v s.
Proof. intros Hp Hv. unfold load_cell. rewrite Hv. by destruct (Z.eqb_spec p 0). Qed.

Lemma load_byte_buffer_Ok s p v :
  p <> 0 -> byte_buffers s !! p = Some v -> load_byte_buffer p s = Ok v s.
Proof. intros Hp Hv. unfold load_byte_buffer. rewrite Hv. by destruct (Z.eqb_spec p 0). Qed.

Lemma load_slice_buffer_Ok s p v :
  p <> 0 -> slice_buffers s !! p = Some v -> load_slice_buffer p s = Ok v s.
Proof. intros Hp Hv. unfold load_slice_buffer. rewrite Hv. by destruct (Z.eqb_spec p 0). Qed.

Lemma store_slice_buffer_Ok s p v w :
  p <> 0 -> slice_buffers s !! p = Some w ->
  store_slice_buffer p v s = Ok tt (with_slice_buffers s (<[p := v]> (slice_buffers s))).
Proof. intros Hp Hv. unfold store_slice_buffer. rewrite Hv. by destruct (Z.eqb_spec p 0). Qed.

Lemma read_bytes_Ok s a n l :
  a <> 0 -> read_range (heap s) a (Z.to_nat n) = Some l -> read_bytes a n s = Ok l s.
Proof. intros Ha Hl. unfold read_bytes. rewrite Hl. by destruct (Z.eqb_spec a 0). Qed.

Lemma write_bytes_Ok s a l :
  a <> 0 -> write_bytes a l s = Ok tt (with_heap s (write_range (heap s) a l)).
Proof. intros Ha. unfold write_bytes. by destruct (Z.eqb_spec a 0). Qed.

Lemma free_Ok s p sz :
  p <> 0 -> blocks s !! p = Some sz ->
  free p s = Ok tt (add_event (with_blocks s (delete p (blocks s)) (next_block s)) (ev_free p)).
Proof. intros Hp Hv. unfold free. rewrite Hv. by destruct (Z.eqb_spec p 0). Qed.

(** The header size the hook uses: the value of the static if its
    initialiser has already run, this invocation's [data - ref_counter]
    otherwise. *)
Definition header_size_used (s : state) (sb : slice_buffer_t) : Z :=
  match ref_counter_struct_size s with
  | Some v => v
  | None => uptr_sub (data sb) (ref_counter sb)
  end.

Lemma ref_counter_struct_size_init_Ok s p sb v :
  p <> 0 -> slice_buffers s !! p = Some sb -> header_size_used s sb = v ->
  ref_counter_struct_size_init p s = Ok v (with_static s v).
Proof.
  intros Hp Hsb <-. unfold ref_counter_struct_size_init, header_size_used.
  destruct s as [c bb sbs h bl nb mf [v|] tr]; cbn.
  - reflexivity.
  - rewrite (load_slice_buffer_Ok _ p sb) by done. reflexivity.
Qed.

Lemma uptr_add_small a b : 0 <= a -> 0 <= b -> a + b < 2 ^ 64 -> uptr_add a b = a + b.
Proof. intros. unfold uptr_add. apply Z.mod_small. lia. Qed.

Lemma uptr_sub_small a b : b <= a < b + 2 ^ 64 -> uptr_sub a b = a - b.
Proof. intros. unfold uptr_sub. apply Z.mod_small. lia. Qed.

Lemma uptr_sub_range a b : 0 <= uptr_sub a b < 2 ^ 64.
Proof. unfold uptr_sub. apply Z.mod_pos_bound. lia. Qed.

Lemma bind_Ok_inv {A B} (m : M A) (f : A -> M B) s r s' :
  (m ≫= f) s = Ok r s' -> exists a s1, m s = Ok a s1 /\ f a s1 = Ok r s'.
Proof. cbv [mbind M_bind]. destruct (m s); [eauto | discriminate]. Qed.

Lemma load_cell_Ok_inv s p v s1 :
  load_cell p s = Ok v s1 -> p <> 0 /\ cells s !! p = Some v /\ s1 = s.
Proof.
  unfold load_cell. destruct (Z.eqb_spec p 0); [discriminate|].
  destruct (cells s !! p); [|discriminate]. intros [= -> ->]. auto.
Qed.

Lemma load_byte_buffer_Ok_inv s p v s1 :
  load_byte_buffer p s = Ok v s1 -> p <> 0 /\ byte_buffers s !! p = Some v /\ s1 = s.
Proof.
  unfold load_byte_buffer. destruct (Z.eqb_spec p 0); [discriminate|].
  destruct (byte_buffers s !! p); [|discriminate]. intros [= -> ->]. auto.
Qed.

Lemma load_slice_buffer_Ok_inv s p v s1 :
  load_slice_buffer p s = Ok v s1 -> p <> 0 /\ slice_buffers s !! p = Some v /\ s1 = s.
Proof.
  unfold load_slice_buffer. destruct (Z.eqb_spec p 0); [discriminate|].
  destruct (slice_buffers s !! p); [|discriminate]. intros [= -> ->]. auto.
Qed.

(** [memcpy] into the null pointer faults, whatever the source holds. *)
Lemma memcpy_null_Fault s src n : 0 < n -> memcpy 0 src n s = Fault s.
Proof.
  intros Hn. unfold memcpy, read_bytes. cbv [mbind M_bind].
  destruct ((src =? 0) && (0 <? n)); [reflexivity|].
  destruct (read_range (heap s) src (Z.to_nat n)) as [l|] eqn:E; [|reflexivity].
  apply read_range_length in E. unfold write_bytes. rewrite E, Z2Nat.id by lia.
  cbn. destruct (Z.ltb_spec 0 n); [reflexivity | lia].
Qed.

(** ** What a computation can change *)

Fixpoint mallocs (l : list event) : nat :=
  match l with [] => 0%nat | ev_malloc _ _ :: l' => S (mallocs l') | _ :: l' => mallocs l' end.
Fixpoint frees (l : list event) : nat :=
  match l with [] => 0%nat | ev_free _ :: l' => S (frees l') | _ :: l' => frees l' end.
Fixpoint originals (l : list event) : nat :=
  match l with [] => 0%nat | ev_original _ :: l' => S (originals l') | _ :: l' => originals l' end.

(** The state a run ends in, whether it returns or faults. *)
Definition final {A} (o : outcome state A) : state :=
  match o with Ok _ s => s | Fault s => s end.

(** From [s] to [s']: the [grpc_byte_buffer *] cells and the byte buffers
    are untouched, the allocator behaves as before, a static that was set
    keeps its value, and the trace is extended by events with at most [a]
    allocations, [f] frees and [o] calls of the original. *)
Definition effect (a f o : nat) (s s' : state) : Prop :=
  cells s' = cells s /\ byte_buffers s' = byte_buffers s /\ malloc_fails s' = malloc_fails s /\
  (forall v, ref_counter_struct_size s = Some v -> ref_counter_struct_size s' = Some v) /\
  exists l, trace s' = trace s ++ l /\
    (mallocs l <= a)%nat /\ (frees l <= f)%nat /\ (originals l <= o)%nat.

Definition within {A} (m : M A) (a f o : nat) : Prop := forall s, effect a f o s (final (m s)).

Lemma counts_app l1 l2 :
  mallocs (l1 ++ l2) = (mallocs l1 + mallocs l2)%nat /\
  frees (l1 ++ l2) = (frees l1 + frees l2)%nat /\
  originals (l1 ++ l2) = (originals l1 + originals l2)%nat.
Proof.
  induction l1 as [|e l1 IH]; cbn; [auto|].
  destruct IH as (H1 & H2 & H3). destruct e; cbn; repeat split; lia.
Qed.

Lemma effect_intro a f o s s' l :
  cells s' = cells s -> byte_buffers s' = byte_buffers s -> malloc_fails s' = malloc_fails s ->
  (forall v, ref_counter_struct_size s = Some v -> ref_counter_struct_size s' = Some v) ->
  trace s' = trace s ++ l -> (mallocs l <= a)%nat -> (frees l <= f)%nat -> (originals l <= o)%nat ->
  effect a f o s s'.
Proof. intros. refine (conj _ (conj _ (conj _ (conj _ _)))); eauto 10. Qed.

Ltac effect_step l :=
  apply (effect_intro _ _ _ _ _ l); cbn;
  [ reflexivity | reflexivity | reflexivity
  | let v := fresh "v" in let Hv := fresh "Hv" in intros v Hv; first [exact Hv | congruence]
  | rewrite ?app_nil_r; reflexivity | cbn; lia | cbn; lia | cbn; lia ].

Lemma effect_refl s : effect 0 0 0 s s.
Proof. effect_step (@nil event). Qed.

Lemma effect_mono a f o a' f' o' s s' :
  effect a f o s s' -> (a <= a')%nat -> (f <= f')%nat -> (o <= o')%nat -> effect a' f' o' s s'.
Proof.
  intros (H1 & H2 & H3 & H4 & l & H5 & H6 & H7 & H8) Ha Hf Ho.
  apply (effect_intro _ _ _ _ _ l); auto; lia.
Qed.

Lemma effect_trans a1 f1 o1 a2 f2 o2 s s1 s2 :
  effect a1 f1 o1 s s1 -> effect a2 f2 o2 s1 s2 -> effect (a1 + a2) (f1 + f2) (o1 + o2) s s2.
Proof.
  intros (H1 & H2 & H3 & H4 & l1 & H5 & H6 & H7 & H8)
    (G1 & G2 & G3 & G4 & l2 & G5 & G6 & G7 & G8).
  pose proof (counts_app l1 l2) as (C1 & C2 & C3).
  apply (effect_intro _ _ _ _ _ (l1 ++ l2)); try congruence; auto; try lia.
  by rewrite G5, H5, app_assoc.
Qed.

Lemma within_bind {A B} (m : M A) (k : A -> M B) a f o a1 f1 o1 :
  within m a1 f1 o1 -> (a1 <= a)%nat -> (f1 <= f)%nat -> (o1 <= o)%nat ->
  (forall x, within (k x) (a - a1) (f - f1) (o - o1)) -> within (m ≫= k) a f o.
Proof.
  intros Hm Ha Hf Ho Hk s. specialize (Hm s). cbv [mbind M_bind].
  destruct (m s) as [x s1|s1]; simpl final in Hm |- *.
  - eapply effect_mono; [eapply effect_trans; [exact Hm | apply Hk] | lia..].
  - eapply effect_mono; [exact Hm | lia..].
Qed.

Lemma within_mono {A} (m : M A) a f o a' f' o' :
  within m a f o -> (a <= a')%nat -> (f <= f')%nat -> (o <= o')%nat -> within m a' f' o'.
Proof. intros Hm ??? s. eapply effect_mono; eauto. Qed.

Lemma within_pure {A} (m : M A) : (forall s, final (m s) = s) -> within m 0 0 0.
Proof. intros H s. rewrite H. apply effect_refl. Qed.

Lemma within_ret {A} (x : A) : within (mret x) 0 0 0.
Proof. by apply within_pure. Qed.

Lemma within_fault {A} : within (@fault A) 0 0 0.
Proof. by apply within_pure. Qed.

Lemma within_load_cell p : within (load_cell p) 0 0 0.
Proof.
  apply within_pure. intros s. unfold load_cell.
  destruct (p =? 0); [|destruct (cells s !! p)]; reflexivity.
Qed.

Lemma within_load_byte_buffer p : within (load_byte_buffer p) 0 0 0.
Proof.
  apply within_pure. intros s. unfold load_byte_buffer.
  destruct (p =? 0); [|destruct (byte_buffers s !! p)]; reflexivity.
Qed.

Lemma within_load_slice_buffer p : within (load_slice_buffer p) 0 0 0.
Proof.
  apply within_pure. intros s. unfold load_slice_buffer.
  destruct (p =? 0); [|destruct (slice_buffers s !! p)]; reflexivity.
Qed.

Lemma within_read_bytes a n : within (read_bytes a n) 0 0 0.
Proof.
  apply within_pure. intros s. unfold read_bytes.
  destruct (_ && _); [|destruct (read_range _ _ _)]; reflexivity.
Qed.

Lemma within_store_slice_buffer p v : within (store_slice_buffer p v) 0 0 0.
Proof.
  intros s. unfold store_slice_buffer. destruct (p =? 0); [apply effect_refl|].
  destruct (slice_buffers s !! p); [effect_step (@nil event) | apply effect_refl].
Qed.

Lemma within_write_bytes a l : within (write_bytes a l) 0 0 0.
Proof.
  intros s. unfold write_bytes. destruct (_ && _); [apply effect_refl | effect_step (@nil event)].
Qed.

Lemma within_memcpy d src n : within (memcpy d src n) 0 0 0.
Proof.
  unfold memcpy. eapply within_bind; [apply within_read_bytes | lia.. | intros l].
  apply within_write_bytes.
Qed.

Lemma within_malloc n : within (malloc n) 1 0 0.
Proof.
  intros s. unfold malloc. destruct (malloc_fails s) eqn:E.
  - effect_step [ev_malloc n 0].
  - effect_step [ev_malloc n (next_block s)].
Qed.

Lemma within_free p : within (free p) 0 1 0.
Proof.
  intros s. unfold free. destruct (p =? 0).
  - eapply effect_mono; [apply effect_refl | lia..].
  - destruct (blocks s !! p); [effect_step [ev_free p] |].
    eapply effect_mono; [apply effect_refl | lia..].
Qed.

Lemma within_emit_read_payload a n : within (emit (ev_read_payload a n)) 0 0 0.
Proof. intros s. effect_step [ev_read_payload a n]. Qed.

Lemma within_ref_counter_struct_size_init p : within (ref_counter_struct_size_init p) 0 0 0.
Proof.
  intros s. unfold ref_counter_struct_size_init.
  destruct (ref_counter_struct_size s) as [v|] eqn:E; [apply effect_refl|].
  unfold load_slice_buffer. destruct (p =? 0); [apply effect_refl|].
  destruct (slice_buffers s !! p); [effect_step (@nil event) | apply effect_refl].
Qed.

Lemma within_get_buffer o : within (get_buffer o) 0 0 0.
Proof. unfold get_buffer. destruct (buffer o); [apply within_ret | apply within_fault]. Qed.

Create HintDb within.
#[local] Hint Resolve within_ret within_fault within_load_cell within_load_byte_buffer
  within_load_slice_buffer within_read_bytes within_store_slice_buffer within_write_bytes
  within_memcpy within_malloc within_free within_emit_read_payload
  within_ref_counter_struct_size_init within_get_buffer : within.

(** Walks through a computation: each bound primitive is charged to the
    budget, branches are split. *)
Ltac within_run :=
  repeat match goal with
  | |- within (_ ≫= _) _ _ _ =>
      eapply within_bind; [solve [eauto with within] | lia | lia | lia | intros ?; cbv beta zeta]
  | |- within (if ?c then _ else _) _ _ _ => destruct c
  | |- within (match ?x with None => _ | Some _ => _ end) _ _ _ => destruct x
  | |- within _ _ _ _ => eapply within_mono; [solve [eauto with within] | lia | lia | lia]
  end.

(** Two rewrites of the same buffer, as the allocator sees them: the
    intermediate block is gone, only the last one is live. *)
Lemma blocks_twice (m : gmap Z Z) r nb n1 nb2 n2 :
  m !! nb = None -> nb <> r -> nb2 <> nb -> nb2 <> r ->
  delete nb (<[nb2 := n2]> (delete r (<[nb := n1]> m))) = <[nb2 := n2]> (delete r m).
Proof.
  intros H1 H3 H4 H5. apply map_eq. intros k.
  destruct (decide (k = nb)) as [->|Hk1].
  { rewrite lookup_delete_eq, lookup_insert_ne, lookup_delete_ne by congruence. by rewrite H1. }
  rewrite lookup_delete_ne by congruence.
  destruct (decide (k = nb2)) as [->|Hk2]; [by rewrite !lookup_insert_eq|].
  rewrite !lookup_insert_ne by congruence.
  destruct (decide (k = r)) as [->|Hk3]; [by rewrite !lookup_delete_eq|].
  rewrite !lookup_delete_ne, lookup_insert_ne by congruence. done.
Qed.

(** ** Runs of the hook *)

Section Runs.

Variable onNativeUnaryCall : string -> list Z -> option NativeRequestData.
Variable unaryCall_original : Z -> string -> Z -> Z -> Z -> Z -> state -> Z.
Variables (unk1 unk4 unk5 unk6 : Z) (uri : string).

(** A rewrite that goes through: the decision-maker returns a non-cancelled
    object with a byte array [P], and [malloc] succeeds.  The header size
    [rc] is [header_size_used].  Besides the memory, the allocator's next
    block is reported. *)
Lemma unaryCall_hook_rewrite_run_full s bp bb sbp sb payload req P hdr sz rc :
  bp <> 0 -> cells s !! bp = Some bb ->
  bb <> 0 -> byte_buffers s !! bb = Some sbp ->
  sbp <> 0 -> slice_buffers s !! sbp = Some sb ->
  ref_counter sb <> 0 ->
  data sb <> 0 -> read_range (heap s) (data sb) (Z.to_nat (length sb)) = Some payload ->
  onNativeUnaryCall uri payload = Some req -> canceled req = false -> buffer req = Some P ->
  header_size_used s sb = rc -> 0 <= rc ->
  read_range (heap s) (ref_counter sb) (Z.to_nat rc) = Some hdr ->
  blocks s !! ref_counter sb = Some sz ->
  malloc_fails s = false -> 0 < next_block s -> blocks s !! next_block s = None ->
  next_block s + rc + Z.of_nat (List.length P) < 2 ^ 64 ->
  let nb := next_block s in
  exists s1,
    unaryCall_hook onNativeUnaryCall unaryCall_original unk1 uri bp unk4 unk5 unk6 s =
      Ok (unaryCall_original unk1 uri bp unk4 unk5 unk6 s1) (add_event s1 (ev_original bp)) /\
    slice_buffers s1 =
      (<[sbp := mk_slice_buffer nb (nb + rc) (Z.of_nat (List.length P))]> (slice_buffers s)) /\
    read_range (heap s1) nb (Z.to_nat rc) = Some hdr /\
    read_range (heap s1) (nb + rc) (List.length P) = Some P /\
    blocks s1 = delete (ref_counter sb) (<[nb := rc + Z.of_nat (List.length P)]> (blocks s)) /\
    ref_counter_struct_size s1 = Some rc /\
    cells s1 = cells s /\ byte_buffers s1 = byte_buffers s /\
    trace s1 = trace s ++ [ev_read_payload (data sb) (length sb); ev_on_unary_call uri payload;
                           ev_malloc (rc + Z.of_nat (List.length P)) nb;
                           ev_free (ref_counter sb)] /\
    next_block s1 = nb + (rc + Z.of_nat (List.length P)) + 1 /\
    malloc_fails s1 = malloc_fails s.
Proof.
  intros Hbp Hcell Hbb Hbbuf Hsbp Hsb Href Hdata Hpay Hdec Hcan HP Hrc Hrc0 Hhdr Hblk
    Hmf Hnb Hfresh Hrange nb.
  assert (Hne : nb <> ref_counter sb) by (intros E; subst nb; congruence).
  assert (Hlen : List.length hdr = Z.to_nat rc) by (eapply read_range_length; eauto).
  unfold unaryCall_hook.
  erewrite bind_Ok; [| apply load_cell_Ok; eassumption]. cbv beta.
  erewrite bind_Ok; [| apply load_byte_buffer_Ok; eassumption]. cbv beta.
  erewrite bind_Ok; [| apply load_slice_buffer_Ok; eassumption]. cbv beta.
  rewrite (proj2 (Z.eqb_neq _ _) Href).
  erewrite bind_Ok; [| apply load_slice_buffer_Ok; eassumption]. cbv beta.
  erewrite bind_Ok; [| apply read_bytes_Ok; eassumption]. cbv beta.
  erewrite bind_Ok; [| reflexivity]. cbv beta.
  erewrite bind_Ok; [| reflexivity]. cbv beta.
  rewrite Hdec, Hcan.
  erewrite bind_Ok; [| unfold get_buffer; rewrite HP; reflexivity]. cbv beta.
  erewrite bind_Ok; [| apply (ref_counter_struct_size_init_Ok _ _ sb rc); eassumption]. cbv beta.
  rewrite (uptr_add_small rc) by lia.
  erewrite bind_Ok; [| unfold malloc; cbn; rewrite Hmf; reflexivity]. cbv beta.
  erewrite bind_Ok; [| apply load_slice_buffer_Ok; cbn; eassumption]. cbv beta.
  erewrite bind_Ok;
    [| unfold memcpy; erewrite bind_Ok; [| apply read_bytes_Ok; cbn; eassumption];
       apply write_bytes_Ok; lia]. cbv beta.
  rewrite (uptr_add_small (next_block s) rc) by lia. fold nb.
  erewrite bind_Ok; [| apply write_bytes_Ok; lia]. cbv beta.
  erewrite bind_Ok; [| apply load_slice_buffer_Ok; cbn; eassumption]. cbv beta.
  erewrite bind_Ok; [| eapply free_Ok; [done | cbn; rewrite lookup_insert_ne by done; eassumption]].
  cbv beta.
  erewrite bind_Ok; [| apply load_slice_buffer_Ok; cbn; eassumption]. cbv beta.
  erewrite bind_Ok; [| eapply store_slice_buffer_Ok; cbn; eassumption]. cbv beta.
  erewrite bind_Ok; [| apply load_slice_buffer_Ok; cbn; [done | apply lookup_insert_eq]].
  cbv beta.
  erewrite bind_Ok; [| eapply store_slice_buffer_Ok; cbn; [done | apply lookup_insert_eq]].
  cbv beta.
  erewrite bind_Ok; [| apply load_slice_buffer_Ok; cbn; [done | apply lookup_insert_eq]].
  cbv beta.
  erewrite bind_Ok; [| eapply store_slice_buffer_Ok; cbn; [done | apply lookup_insert_eq]].
  cbv beta.
  unfold call_original. eexists. split; [reflexivity |]. cbn.
  split; [by rewrite !insert_insert_eq |].
  split.
  { rewrite read_range_ext with (h := write_range (heap s) nb hdr).
    - rewrite <- Hlen. apply read_write_range.
    - intros x Hx. rewrite lookup_write_range, decide_False by lia. reflexivity. }
  split; [apply read_write_range |].
  split; [reflexivity |].
  split; [reflexivity |].
  split; [reflexivity |].
  split; [reflexivity |].
  split; [by rewrite <- !app_assoc |].
  split; reflexivity.
Qed.

(** A rewrite that goes through: the decision-maker returns a non-cancelled
    object with a byte array [P], and [malloc] succeeds.  The header size
    [rc] is [header_size_used]. *)
Lemma unaryCall_hook_rewrite_run s bp bb sbp sb payload req P hdr sz rc :
  bp <> 0 -> cells s !! bp = Some bb ->
  bb <> 0 -> byte_buffers s !! bb = Some sbp ->
  sbp <> 0 -> slice_buffers s !! sbp = Some sb ->
  ref_counter sb <> 0 ->
  data sb <> 0 -> read_range (heap s) (data sb) (Z.to_nat (length sb)) = Some payload ->
  onNativeUnaryCall uri payload = Some req -> canceled req = false -> buffer req = Some P ->
  header_size_used s sb = rc -> 0 <= rc ->
  read_range (heap s) (ref_counter sb) (Z.to_nat rc) = Some hdr ->
  blocks s !! ref_counter sb = Some sz ->
  malloc_fails s = false -> 0 < next_block s -> blocks s !! next_block s = None ->
  next_block s + rc + Z.of_nat (List.length P) < 2 ^ 64 ->
  let nb := next_block s in
  exists s1,
    unaryCall_hook onNativeUnaryCall unaryCall_original unk1 uri bp unk4 unk5 unk6 s =
      Ok (unaryCall_original unk1 uri bp unk4 unk5 unk6 s1) (add_event s1 (ev_original bp)) /\
    slice_buffers s1 =
      (<[sbp := mk_slice_buffer nb (nb + rc) (Z.of_nat (List.length P))]> (slice_buffers s)) /\
    read_range (heap s1) nb (Z.to_nat rc) = Some hdr /\
    read_range (heap s1) (nb + rc) (List.length P) = Some P /\
    blocks s1 = delete (ref_counter sb) (<[nb := rc + Z.of_nat (List.length P)]> (blocks s)) /\
    ref_counter_struct_size s1 = Some rc /\
    cells s1 = cells s /\ byte_buffers s1 = byte_buffers s /\
    trace s1 = trace s ++ [ev_read_payload (data sb) (length sb); ev_on_unary_call uri payload;
                           ev_malloc (rc + Z.of_nat (List.length P)) nb;
                           ev_free (ref_counter sb)].
Proof.
  intros. destruct (unaryCall_hook_rewrite_run_full s bp bb sbp sb payload req P hdr sz rc)
    as (s1 & R1 & R2 & R3 & R4 & R5 & R6 & R7 & R8 & R9 & _ & _); try assumption.
  exists s1. repeat split; assumption.
Qed.

(** Where the slice buffer is written.  A run that faults leaves the slice
    buffers as they were.  A run that returns either leaves them as they
    were, or it has gone through a whole rewrite: the payload was read, the
    decision-maker returned a non-cancelled object with a byte array [P],
    [malloc] was called, the header and [P] were both copied into the
    returned block, the old block was freed, and only then was the slice
    buffer set, in full, to the new block, data pointer and length. *)
Lemma unaryCall_hook_descriptor_update bp t :
  match unaryCall_hook onNativeUnaryCall unaryCall_original unk1 uri bp unk4 unk5 unk6 t with
  | Fault t' => slice_buffers t' = slice_buffers t
  | Ok _ t' =>
      slice_buffers t' = slice_buffers t \/
      exists bb sbp sb payload req P rc p hdr,
        cells t !! bp = Some bb /\ byte_buffers t !! bb = Some sbp /\
        slice_buffers t !! sbp = Some sb /\ ref_counter sb <> 0 /\
        read_range (heap t) (data sb) (Z.to_nat (length sb)) = Some payload /\
        onNativeUnaryCall uri payload = Some req /\ canceled req = false /\ buffer req = Some P /\
        ref_counter_struct_size t' = Some rc /\
        read_range (heap t) (ref_counter sb) (Z.to_nat rc) = Some hdr /\
        trace t' = trace t ++ [ev_read_payload (data sb) (length sb); ev_on_unary_call uri payload;
                               ev_malloc (uptr_add rc (Z.of_nat (List.length P))) p;
                               ev_free (ref_counter sb); ev_original bp] /\
        heap t' = write_range (write_range (heap t) p hdr) (uptr_add p rc) P /\
        slice_buffers t' =
          <[sbp := mk_slice_buffer p (uptr_add p rc) (Z.of_nat (List.length P))]> (slice_buffers t)
  end.
Proof.
  unfold unaryCall_hook, call_original, call_on_unary_call, get_buffer,
    ref_counter_struct_size_init, memcpy, malloc, free, load_cell, load_byte_buffer,
    load_slice_buffer, store_slice_buffer, read_bytes, write_bytes, emit, fault.
  cbv [mbind M_bind mret M_ret].
  (* innermost tests first, so that every branch reduces *)
  repeat match goal with
  | |- context [match ?x with _ => _ end] =>
      lazymatch x with
      | context [match _ with _ => _ end] => fail
      | _ => destruct x eqn:?; cbn -[read_range write_range uptr_add uptr_sub] in *;
             rewrite ?lookup_insert_eq in *; simplify_eq; try congruence
      end
  end.
  all: try (left; reflexivity).
  all: try reflexivity.
  all: right; eexists _, _, _, _, _, _, _, _, _; repeat split; try eassumption.
  all: first [ by apply Z.eqb_neq | by rewrite <- !app_assoc | by rewrite !insert_insert_eq ].
Qed.

(** C4: a slice buffer whose reference counter is zero is forwarded at once:
    the payload is not read, the decision-maker is not called, nothing is
    allocated or freed, and the original's result is returned. *)
Theorem unaryCall_hook_zero_ref_counter s bp bb sbp sb :
  bp <> 0 -> cells s !! bp = Some bb -> bb <> 0 -> byte_buffers s !! bb = Some sbp ->
  sbp <> 0 -> slice_buffers s !! sbp = Some sb -> ref_counter sb = 0 ->
  unaryCall_hook onNativeUnaryCall unaryCall_original unk1 uri bp unk4 unk5 unk6 s =
    Ok (unaryCall_original unk1 uri bp unk4 unk5 unk6 s) (add_event s (ev_original bp)).
Proof.
  intros Hbp Hcell Hbb Hbbuf Hsbp Hsb Href. unfold unaryCall_hook.
  erewrite bind_Ok; [| apply load_cell_Ok; eassumption]. cbv beta.
  erewrite bind_Ok; [| apply load_byte_buffer_Ok; eassumption]. cbv beta.
  erewrite bind_Ok; [| apply load_slice_buffer_Ok; eassumption]. cbv beta.
  rewrite Href. reflexivity.
Qed.

(** C5: when the decision-maker's object has [canceled] set, the hook
    returns null and the original is never invoked; besides reading the
    payload and calling the decision-maker nothing happens (no allocation,
    no free, the slice buffer is untouched). *)
Theorem unaryCall_hook_cancel s bp bb sbp sb payload req :
  bp <> 0 -> cells s !! bp = Some bb -> bb <> 0 -> byte_buffers s !! bb = Some sbp ->
  sbp <> 0 -> slice_buffers s !! sbp = Some sb -> ref_counter sb <> 0 ->
  read_bytes (data sb) (length sb) s = Ok payload s ->
  onNativeUnaryCall uri payload = Some req -> canceled req = true ->
  unaryCall_hook onNativeUnaryCall unaryCall_original unk1 uri bp unk4 unk5 unk6 s =
    Ok 0 (add_event (add_event s (ev_read_payload (data sb) (length sb)))
            (ev_on_unary_call uri payload)).
Proof.
  intros Hbp Hcell Hbb Hbbuf Hsbp Hsb Href Hpay Hdec Hcan. unfold unaryCall_hook.
  erewrite bind_Ok; [| apply load_cell_Ok; eassumption]. cbv beta.
  erewrite bind_Ok; [| apply load_byte_buffer_Ok; eassumption]. cbv beta.
  erewrite bind_Ok; [| apply load_slice_buffer_Ok; eassumption]. cbv beta.
  rewrite (proj2 (Z.eqb_neq _ _) Href).
  erewrite bind_Ok; [| apply load_slice_buffer_Ok; eassumption]. cbv beta.
  erewrite bind_Ok; [| exact Hpay]. cbv beta.
  erewrite bind_Ok; [| reflexivity]. cbv beta.
  erewrite bind_Ok; [| reflexivity]. cbv beta.
  rewrite Hdec, Hcan. reflexivity.
Qed.

(** C6: when the decision-maker returns null, the slice buffer, the heap and
    the allocator are as before, and the original is invoked exactly once,
    its result returned as it is. *)
Theorem unaryCall_hook_no_opinion s bp bb sbp sb payload :
  bp <> 0 -> cells s !! bp = Some bb -> bb <> 0 -> byte_buffers s !! bb = Some sbp ->
  sbp <> 0 -> slice_buffers s !! sbp = Some sb -> ref_counter sb <> 0 ->
  read_bytes (data sb) (length sb) s = Ok payload s ->
  onNativeUnaryCall uri payload = None ->
  let s1 := add_event (add_event s (ev_read_payload (data sb) (length sb)))
              (ev_on_unary_call uri payload) in
  unaryCall_hook onNativeUnaryCall unaryCall_original unk1 uri bp unk4 unk5 unk6 s =
    Ok (unaryCall_original unk1 uri bp unk4 unk5 unk6 s1) (add_event s1 (ev_original bp)) /\
  slice_buffers s1 = slice_buffers s /\ heap s1 = heap s /\ blocks s1 = blocks s /\
  cells s1 = cells s /\ byte_buffers s1 = byte_buffers s.
Proof.
  intros Hbp Hcell Hbb Hbbuf Hsbp Hsb Href Hpay Hdec s1.
  split; [| repeat split]. unfold unaryCall_hook.
  erewrite bind_Ok; [| apply load_cell_Ok; eassumption]. cbv beta.
  erewrite bind_Ok; [| apply load_byte_buffer_Ok; eassumption]. cbv beta.
  erewrite bind_Ok; [| apply load_slice_buffer_Ok; eassumption]. cbv beta.
  rewrite (proj2 (Z.eqb_neq _ _) Href).
  erewrite bind_Ok; [| apply load_slice_buffer_Ok; eassumption]. cbv beta.
  erewrite bind_Ok; [| exact Hpay]. cbv beta.
  erewrite bind_Ok; [| reflexivity]. cbv beta.
  erewrite bind_Ok; [| reflexivity]. cbv beta.
  rewrite Hdec. reflexivity.
Qed.

(** C10: the hook dereferences [buffer_ptr], [*buffer_ptr] and the
    [slice_buffer] field with no guard: if any of them is null the hook
    faults before doing anything, and every run that returns has all three
    non-null. *)
Theorem unaryCall_hook_requires_nonnull s bp :
  ((bp = 0 \/ cells s !! bp = Some 0 \/
    (exists bb, cells s !! bp = Some bb /\ byte_buffers s !! bb = Some 0)) ->
   unaryCall_hook onNativeUnaryCall unaryCall_original unk1 uri bp unk4 unk5 unk6 s = Fault s) /\
  (forall r s',
   unaryCall_hook onNativeUnaryCall unaryCall_original unk1 uri bp unk4 unk5 unk6 s = Ok r s' ->
   exists bb sbp, bp <> 0 /\ cells s !! bp = Some bb /\ bb <> 0 /\
     byte_buffers s !! bb = Some sbp /\ sbp <> 0).
Proof.
  split.
  - intros Hnull. unfold unaryCall_hook.
    destruct (decide (bp = 0)) as [->|Hbp].
    { apply bind_Fault. reflexivity. }
    destruct Hnull as [Hnull | [Hnull | [bb [Hcell Hbb]]]]; [done | |].
    + erewrite bind_Ok; [| apply load_cell_Ok; eassumption]. cbv beta.
      apply bind_Fault. reflexivity.
    + erewrite bind_Ok; [| apply load_cell_Ok; eassumption]. cbv beta.
      destruct (decide (bb = 0)) as [->|Hbb0]; [apply bind_Fault; reflexivity|].
      erewrite bind_Ok; [| apply load_byte_buffer_Ok; eassumption]. cbv beta.
      apply bind_Fault. reflexivity.
  - intros r s' Hrun. unfold unaryCall_hook in Hrun.
    apply bind_Ok_inv in Hrun as (bb & s1 & H1 & Hrun).
    apply load_cell_Ok_inv in H1 as (Hbp & Hcell & ->).
    apply bind_Ok_inv in Hrun as (sbp & s2 & H2 & Hrun).
    apply load_byte_buffer_Ok_inv in H2 as (Hbb & Hbbuf & ->).
    apply bind_Ok_inv in Hrun as (sb & s3 & H3 & _).
    apply load_slice_buffer_Ok_inv in H3 as (Hsbp & _ & _).
    eauto 10.
Qed.

(** C1 (amended): when the decision-maker asks for a rewrite with payload
    [P], [malloc] succeeds, and the static header size is unset or equal to
    this buffer's [data - ref_counter] (the header size [h]): the slice
    buffer's length is [|P|], the bytes at its new data pointer are [P], the
    new block begins with the original [h] header bytes and the data pointer
    follows them, the new block has [h + |P|] bytes, the old block is freed
    exactly once, just before the original is invoked, and the original's
    result is returned. *)
Theorem unaryCall_hook_rewrite s bp bb sbp sb payload req P sz :
  bp <> 0 -> cells s !! bp = Some bb -> bb <> 0 -> byte_buffers s !! bb = Some sbp ->
  sbp <> 0 -> slice_buffers s !! sbp = Some sb ->
  0 < ref_counter sb <= data sb -> data sb < 2 ^ 64 ->
  read_range (heap s) (data sb) (Z.to_nat (length sb)) = Some payload ->
  onNativeUnaryCall uri payload = Some req -> canceled req = false -> buffer req = Some P ->
  ref_counter_struct_size s = None \/
    ref_counter_struct_size s = Some (data sb - ref_counter sb) ->
  is_Some (read_range (heap s) (ref_counter sb) (Z.to_nat (data sb - ref_counter sb))) ->
  blocks s !! ref_counter sb = Some sz ->
  malloc_fails s = false -> 0 < next_block s -> blocks s !! next_block s = None ->
  next_block s + (data sb - ref_counter sb) + Z.of_nat (List.length P) < 2 ^ 64 ->
  exists s1 sb',
    unaryCall_hook onNativeUnaryCall unaryCall_original unk1 uri bp unk4 unk5 unk6 s =
      Ok (unaryCall_original unk1 uri bp unk4 unk5 unk6 s1) (add_event s1 (ev_original bp)) /\
    slice_buffers s1 !! sbp = Some sb' /\
    length sb' = Z.of_nat (List.length P) /\
    read_range (heap s1) (data sb') (List.length P) = Some P /\
    data sb' - ref_counter sb' = data sb - ref_counter sb /\
    read_range (heap s1) (ref_counter sb') (Z.to_nat (data sb' - ref_counter sb')) =
      read_range (heap s) (ref_counter sb) (Z.to_nat (data sb - ref_counter sb)) /\
    blocks s1 !! ref_counter sb' = Some (data sb - ref_counter sb + Z.of_nat (List.length P)) /\
    blocks s1 !! ref_counter sb = None /\
    trace s1 = trace s ++ [ev_read_payload (data sb) (length sb); ev_on_unary_call uri payload;
                           ev_malloc (data sb - ref_counter sb + Z.of_nat (List.length P))
                             (ref_counter sb');
                           ev_free (ref_counter sb)].
Proof.
  intros Hbp Hcell Hbb Hbbuf Hsbp Hsb Href Hdata Hpay Hdec Hcan HP Hstatic [hdr Hhdr] Hblk
    Hmf Hnb Hfresh Hrange.
  assert (Hrc : header_size_used s sb = data sb - ref_counter sb).
  { unfold header_size_used.
    destruct Hstatic as [-> | ->]; [apply uptr_sub_small; lia | reflexivity]. }
  assert (Hne : next_block s <> ref_counter sb) by (intros E; rewrite E in Hfresh; congruence).
  destruct (unaryCall_hook_rewrite_run s bp bb sbp sb payload req P hdr sz
              (data sb - ref_counter sb))
    as (s1 & Hrun & Hsbs & Hh & Hp & Hbl & _ & _ & _ & Htr); try done; try lia.
  exists s1, (mk_slice_buffer (next_block s) (next_block s + (data sb - ref_counter sb))
           (Z.of_nat (List.length P))).
  cbn. rewrite Hsbs, lookup_insert_eq, Hbl, Hhdr.
  replace (next_block s + (data sb - ref_counter sb) - next_block s)
    with (data sb - ref_counter sb) by lia.
  rewrite lookup_delete_ne, lookup_insert_eq, lookup_delete_eq by done.
  repeat split; done.
Qed.

(** C2 (amended): the result of [malloc] is not checked.  When allocation
    fails, the hook copies the header into the null pointer and faults
    there: the old block has not been freed, the slice buffer's fields are
    as before, and the original is not invoked (there is no fallback to the
    unmodified buffer).  And in every run, from any memory: a run that
    faults leaves the slice buffers unchanged, and a run that returns with
    a changed slice buffer has called [malloc], copied both the header and
    the new payload into the returned block and freed the old block, and
    sets the slice buffer's three fields together, to the new block, the
    data pointer past the copied header and the new length. *)
Theorem unaryCall_hook_malloc_failure s bp bb sbp sb payload req P :
  bp <> 0 -> cells s !! bp = Some bb -> bb <> 0 -> byte_buffers s !! bb = Some sbp ->
  sbp <> 0 -> slice_buffers s !! sbp = Some sb -> ref_counter sb <> 0 ->
  read_bytes (data sb) (length sb) s = Ok payload s ->
  onNativeUnaryCall uri payload = Some req -> canceled req = false -> buffer req = Some P ->
  0 < header_size_used s sb -> malloc_fails s = true ->
  (exists s',
    unaryCall_hook onNativeUnaryCall unaryCall_original unk1 uri bp unk4 unk5 unk6 s = Fault s' /\
    slice_buffers s' = slice_buffers s /\ heap s' = heap s /\ blocks s' = blocks s /\
    trace s' = trace s ++ [ev_read_payload (data sb) (length sb); ev_on_unary_call uri payload;
                           ev_malloc (uptr_add (header_size_used s sb) (Z.of_nat (List.length P))) 0]) /\
  (forall bp' t,
    match unaryCall_hook onNativeUnaryCall unaryCall_original unk1 uri bp' unk4 unk5 unk6 t with
    | Fault t' => slice_buffers t' = slice_buffers t
    | Ok _ t' =>
        slice_buffers t' = slice_buffers t \/
        exists bb' sbp' sb' payload' req' P' rc p hdr,
          cells t !! bp' = Some bb' /\ byte_buffers t !! bb' = Some sbp' /\
          slice_buffers t !! sbp' = Some sb' /\ ref_counter sb' <> 0 /\
          read_range (heap t) (data sb') (Z.to_nat (length sb')) = Some payload' /\
          onNativeUnaryCall uri payload' = Some req' /\ canceled req' = false /\ buffer req' = Some P' /\
          ref_counter_struct_size t' = Some rc /\
          read_range (heap t) (ref_counter sb') (Z.to_nat rc) = Some hdr /\
          trace t' = trace t ++ [ev_read_payload (data sb') (length sb'); ev_on_unary_call uri payload';
                                 ev_malloc (uptr_add rc (Z.of_nat (List.length P'))) p;
                                 ev_free (ref_counter sb'); ev_original bp'] /\
          heap t' = write_range (write_range (heap t) p hdr) (uptr_add p rc) P' /\
          slice_buffers t' =
            <[sbp' := mk_slice_buffer p (uptr_add p rc) (Z.of_nat (List.length P'))]> (slice_buffers t)
    end).
Proof.
  intros Hbp Hcell Hbb Hbbuf Hsbp Hsb Href Hpay Hdec Hcan HP Hrc Hmf.
  split; [| intros bp' t; apply unaryCall_hook_descriptor_update].
  unfold unaryCall_hook.
  erewrite bind_Ok; [| apply load_cell_Ok; eassumption]. cbv beta.
  erewrite bind_Ok; [| apply load_byte_buffer_Ok; eassumption]. cbv beta.
  erewrite bind_Ok; [| apply load_slice_buffer_Ok; eassumption]. cbv beta.
  rewrite (proj2 (Z.eqb_neq _ _) Href).
  erewrite bind_Ok; [| apply load_slice_buffer_Ok; eassumption]. cbv beta.
  erewrite bind_Ok; [| exact Hpay]. cbv beta.
  erewrite bind_Ok; [| reflexivity]. cbv beta.
  erewrite bind_Ok; [| reflexivity]. cbv beta.
  rewrite Hdec, Hcan.
  erewrite bind_Ok; [| unfold get_buffer; rewrite HP; reflexivity]. cbv beta.
  erewrite bind_Ok;
    [| apply (ref_counter_struct_size_init_Ok _ _ sb (header_size_used s sb));
       [done | exact Hsb | reflexivity]]. cbv beta.
  erewrite bind_Ok; [| unfold malloc; cbn; rewrite Hmf; reflexivity]. cbv beta.
  erewrite bind_Ok; [| apply load_slice_buffer_Ok; cbn; eassumption]. cbv beta.
  erewrite bind_Fault; [| apply memcpy_null_Fault; exact Hrc].
  eexists. split; [reflexivity|]. cbn. rewrite <- !app_assoc. repeat split.
Qed.

(** C3 (amended): the header size that sizes the new block, is copied, and
    places the new data pointer is the function-local static
    [ref_counter_struct_size]: if it is unset it is set to this invocation's
    [data - ref_counter] (modulo 2^64), otherwise the value stored by the
    first rewrite of the process is reused. *)
Theorem unaryCall_hook_header_size s bp bb sbp sb payload req P hdr sz :
  bp <> 0 -> cells s !! bp = Some bb -> bb <> 0 -> byte_buffers s !! bb = Some sbp ->
  sbp <> 0 -> slice_buffers s !! sbp = Some sb -> ref_counter sb <> 0 ->
  data sb <> 0 -> read_range (heap s) (data sb) (Z.to_nat (length sb)) = Some payload ->
  onNativeUnaryCall uri payload = Some req -> canceled req = false -> buffer req = Some P ->
  0 <= header_size_used s sb ->
  read_range (heap s) (ref_counter sb) (Z.to_nat (header_size_used s sb)) = Some hdr ->
  blocks s !! ref_counter sb = Some sz ->
  malloc_fails s = false -> 0 < next_block s -> blocks s !! next_block s = None ->
  next_block s + header_size_used s sb + Z.of_nat (List.length P) < 2 ^ 64 ->
  let h := match ref_counter_struct_size s with
           | Some v => v
           | None => uptr_sub (data sb) (ref_counter sb)
           end in
  exists s1 sb',
    unaryCall_hook onNativeUnaryCall unaryCall_original unk1 uri bp unk4 unk5 unk6 s =
      Ok (unaryCall_original unk1 uri bp unk4 unk5 unk6 s1) (add_event s1 (ev_original bp)) /\
    slice_buffers s1 !! sbp = Some sb' /\
    In (ev_malloc (h + Z.of_nat (List.length P)) (ref_counter sb')) (trace s1) /\
    read_range (heap s1) (ref_counter sb') (Z.to_nat h) = Some hdr /\
    data sb' = ref_counter sb' + h /\
    ref_counter_struct_size s1 = Some h.
Proof.
  intros Hbp Hcell Hbb Hbbuf Hsbp Hsb Href Hdata Hpay Hdec Hcan HP Hrc0 Hhdr Hblk
    Hmf Hnb Hfresh Hrange h.
  destruct (unaryCall_hook_rewrite_run s bp bb sbp sb payload req P hdr sz
              (header_size_used s sb))
    as (s1 & Hrun & Hsbs & Hh & _ & _ & Hst & _ & _ & Htr); try done.
  exists s1, (mk_slice_buffer (next_block s) (next_block s + h) (Z.of_nat (List.length P))).
  cbn. rewrite Hsbs, lookup_insert_eq, Htr. fold h in Hh, Hst |- *.
  split; [exact Hrun|]. split; [reflexivity|].
  split; [apply in_or_app; right; cbn; right; right; left; reflexivity |]. done.
Qed.

Lemma within_call_on_unary_call u p : within (call_on_unary_call onNativeUnaryCall u p) 0 0 0.
Proof. intros s. effect_step [ev_on_unary_call u p]. Qed.

Lemma within_call_original bp :
  within (call_original unaryCall_original unk1 uri bp unk4 unk5 unk6) 0 0 1.
Proof. intros s. effect_step [ev_original bp]. Qed.

#[local] Hint Resolve within_call_on_unary_call within_call_original : within.

(** Whatever the memory holds, one invocation of the hook allocates at
    most once, frees at most once and calls the original at most once. *)
Lemma unaryCall_hook_within bp :
  within (unaryCall_hook onNativeUnaryCall unaryCall_original unk1 uri bp unk4 unk5 unk6) 1 1 1.
Proof. unfold unaryCall_hook. within_run. Qed.

(** A non-cancelled object whose [buffer] field is null: [GetArrayLength]
    is handed null and the hook faults there, after reading the payload and
    calling the decision-maker, before any allocation, free, change of the
    slice buffer or call of the original. *)
Theorem unaryCall_hook_null_buffer s bp bb sbp sb payload req :
  bp <> 0 -> cells s !! bp = Some bb -> bb <> 0 -> byte_buffers s !! bb = Some sbp ->
  sbp <> 0 -> slice_buffers s !! sbp = Some sb -> ref_counter sb <> 0 ->
  read_bytes (data sb) (length sb) s = Ok payload s ->
  onNativeUnaryCall uri payload = Some req -> canceled req = false -> buffer req = None ->
  unaryCall_hook onNativeUnaryCall unaryCall_original unk1 uri bp unk4 unk5 unk6 s =
    Fault (add_event (add_event s (ev_read_payload (data sb) (length sb)))
             (ev_on_unary_call uri payload)).
Proof.
  intros Hbp Hcell Hbb Hbbuf Hsbp Hsb Href Hpay Hdec Hcan Hbuf. unfold unaryCall_hook.
  erewrite bind_Ok; [| apply load_cell_Ok; eassumption]. cbv beta.
  erewrite bind_Ok; [| apply load_byte_buffer_Ok; eassumption]. cbv beta.
  erewrite bind_Ok; [| apply load_slice_buffer_Ok; eassumption]. cbv beta.
  rewrite (proj2 (Z.eqb_neq _ _) Href).
  erewrite bind_Ok; [| apply load_slice_buffer_Ok; eassumption]. cbv beta.
  erewrite bind_Ok; [| exact Hpay]. cbv beta.
  erewrite bind_Ok; [| reflexivity]. cbv beta.
  erewrite bind_Ok; [| reflexivity]. cbv beta.
  rewrite Hdec, Hcan. apply bind_Fault. unfold get_buffer. by rewrite Hbuf.
Qed.

(** Two rewrites of the same request buffer in a row (the decision-maker
    is handed the first rewrite's payload the second time): the slice
    buffer ends with the second payload after the original header bytes,
    and of the three blocks involved only the last is live: the original
    block and the first rewrite's block are both freed. *)
Theorem unaryCall_hook_rewrite_twice s bp bb sbp sb payload req1 P1 req2 P2 hdr sz rc :
  bp <> 0 -> cells s !! bp = Some bb -> bb <> 0 -> byte_buffers s !! bb = Some sbp ->
  sbp <> 0 -> slice_buffers s !! sbp = Some sb -> ref_counter sb <> 0 ->
  data sb <> 0 -> read_range (heap s) (data sb) (Z.to_nat (length sb)) = Some payload ->
  onNativeUnaryCall uri payload = Some req1 -> canceled req1 = false -> buffer req1 = Some P1 ->
  onNativeUnaryCall uri P1 = Some req2 -> canceled req2 = false -> buffer req2 = Some P2 ->
  header_size_used s sb = rc -> 0 <= rc ->
  read_range (heap s) (ref_counter sb) (Z.to_nat rc) = Some hdr ->
  blocks s !! ref_counter sb = Some sz ->
  malloc_fails s = false -> 0 < next_block s ->
  map_Forall (fun k _ => k < next_block s) (blocks s) ->
  next_block s + 2 * rc + Z.of_nat (List.length P1) + Z.of_nat (List.length P2) + 1 < 2 ^ 64 ->
  exists s1 s2 sb2,
    unaryCall_hook onNativeUnaryCall unaryCall_original unk1 uri bp unk4 unk5 unk6 s =
      Ok (unaryCall_original unk1 uri bp unk4 unk5 unk6 s1) (add_event s1 (ev_original bp)) /\
    unaryCall_hook onNativeUnaryCall unaryCall_original unk1 uri bp unk4 unk5 unk6
      (add_event s1 (ev_original bp)) =
      Ok (unaryCall_original unk1 uri bp unk4 unk5 unk6 s2) (add_event s2 (ev_original bp)) /\
    slice_buffers s2 !! sbp = Some sb2 /\
    length sb2 = Z.of_nat (List.length P2) /\ data sb2 = ref_counter sb2 + rc /\
    read_range (heap s2) (data sb2) (List.length P2) = Some P2 /\
    read_range (heap s2) (ref_counter sb2) (Z.to_nat rc) = Some hdr /\
    blocks s2 = <[ref_counter sb2 := rc + Z.of_nat (List.length P2)]> (delete (ref_counter sb) (blocks s)).
Proof.
  intros Hbp Hcell Hbb Hbbuf Hsbp Hsb Href Hdata Hpay Hdec1 Hcan1 HP1 Hdec2 Hcan2 HP2
    Hrc Hrc0 Hhdr Hblk Hmf Hnb Hbelow Hrange.
  assert (Hfresh : blocks s !! next_block s = None).
  { destruct (blocks s !! next_block s) eqn:E; [|done]. apply Hbelow in E. lia. }
  assert (Hne : next_block s <> ref_counter sb) by (intros E; rewrite E in Hfresh; congruence).
  destruct (unaryCall_hook_rewrite_run_full s bp bb sbp sb payload req1 P1 hdr sz rc)
    as (s1 & Hrun1 & Hsbs1 & Hh1 & Hp1 & Hbl1 & Hst1 & Hc1 & Hb1 & _ & Hnext1 & Hmf1);
    try done; try lia.
  set (nb := next_block s) in *.
  set (nb2 := nb + (rc + Z.of_nat (List.length P1)) + 1) in *.
  set (s1' := add_event s1 (ev_original bp)).
  destruct (unaryCall_hook_rewrite_run_full s1' bp bb sbp
              (mk_slice_buffer nb (nb + rc) (Z.of_nat (List.length P1))) P1 req2 P2 hdr
              (rc + Z.of_nat (List.length P1)) rc)
    as (s2 & Hrun2 & Hsbs2 & Hh2 & Hp2 & Hbl2 & _ & _ & _ & _ & _ & _);
    unfold s1'; cbn; try done; try lia.
  - by rewrite Hc1.
  - by rewrite Hb1.
  - by rewrite Hsbs1, lookup_insert_eq.
  - by rewrite Nat2Z.id.
  - unfold header_size_used. cbn. by rewrite Hst1.
  - rewrite Hbl1, lookup_delete_ne by done. by rewrite lookup_insert_eq.
  - congruence.
  - rewrite Hbl1, Hnext1. fold nb2.
    destruct (decide (ref_counter sb = nb2)) as [E|E]; [by rewrite E, lookup_delete_eq|].
    rewrite lookup_delete_ne, lookup_insert_ne by (done || lia).
    destruct (blocks s !! nb2) eqn:E2; [|done]. apply Hbelow in E2. lia.
  - change (next_block s1') with (next_block s1) in Hsbs2, Hh2, Hp2, Hbl2.
    change (blocks s1') with (blocks s1) in Hbl2.
    rewrite Hnext1 in Hsbs2, Hh2, Hp2, Hbl2. fold nb2 in Hsbs2, Hh2, Hp2, Hbl2.
    exists s1, s2, (mk_slice_buffer nb2 (nb2 + rc) (Z.of_nat (List.length P2))). cbn.
    split; [exact Hrun1|]. split; [exact Hrun2|].
    rewrite Hsbs2, lookup_insert_eq. split; [reflexivity|].
    split; [reflexivity|]. split; [reflexivity|]. split; [exact Hp2|]. split; [exact Hh2|].
    rewrite Hbl2, Hbl1. apply blocks_twice; [done | done | lia |].
    intros E. apply Hbelow in Hblk. lia.
Qed.

(** However an invocation of the hook ends (returning or faulting), it only
    appends to the trace, with at most one allocation, at most one free and
    at most one call of the original. *)
Theorem unaryCall_hook_at_most_once bp s :
  exists l,
    trace (final (unaryCall_hook onNativeUnaryCall unaryCall_original unk1 uri bp unk4 unk5 unk6 s)) =
      trace s ++ l /\
    (mallocs l <= 1)%nat /\ (frees l <= 1)%nat /\ (originals l <= 1)%nat.
Proof. destruct (unaryCall_hook_within bp s) as (_ & _ & _ & _ & H). exact H. Qed.

End Runs.

(** ** Concrete runs *)

Ltac concrete :=
  solve [ lia | vm_compute; reflexivity | vm_compute; eexists; reflexivity
        | cbn; lia | vm_compute; congruence | left; vm_compute; reflexivity ].

Lemma unaryCall_hook_zero_ref_counter_witness :
  unaryCall_hook (ex_decision ex_rewrite) ex_original 0 "u" 100 0 0 0 (ex_state 0 false None) =
    Ok (ex_original 0 "u" 100 0 0 0 (ex_state 0 false None))
       (add_event (ex_state 0 false None) (ev_original 100)).
Proof.
  apply (unaryCall_hook_zero_ref_counter _ _ 0 0 0 0 "u" (ex_state 0 false None) 100 200 300
           (mk_slice_buffer 0 1008 3)); concrete.
Defined.

Lemma unaryCall_hook_cancel_witness :
  unaryCall_hook (ex_decision (Some (mk_request_data true None))) ex_original 0 "u" 100 0 0 0
    (ex_state 1000 false None) =
  Ok 0 (add_event (add_event (ex_state 1000 false None) (ev_read_payload 1008 3))
          (ev_on_unary_call "u" [9; 10; 11])).
Proof.
  apply (unaryCall_hook_cancel _ _ 0 0 0 0 "u" (ex_state 1000 false None) 100 200 300
           (mk_slice_buffer 1000 1008 3) [9; 10; 11] (mk_request_data true None)); concrete.
Defined.

Lemma unaryCall_hook_no_opinion_witness :
  let s1 := add_event (add_event (ex_state 1000 false None) (ev_read_payload 1008 3))
              (ev_on_unary_call "u" [9; 10; 11]) in
  unaryCall_hook (ex_decision None) ex_original 0 "u" 100 0 0 0 (ex_state 1000 false None) =
    Ok (ex_original 0 "u" 100 0 0 0 s1) (add_event s1 (ev_original 100)) /\
  slice_buffers s1 = slice_buffers (ex_state 1000 false None) /\
  heap s1 = heap (ex_state 1000 false None) /\ blocks s1 = blocks (ex_state 1000 false None) /\
  cells s1 = cells (ex_state 1000 false None) /\
  byte_buffers s1 = byte_buffers (ex_state 1000 false None).
Proof.
  apply (unaryCall_hook_no_opinion _ _ 0 0 0 0 "u" (ex_state 1000 false None) 100 200 300
           (mk_slice_buffer 1000 1008 3) [9; 10; 11]); concrete.
Defined.

Lemma unaryCall_hook_rewrite_witness :
  exists s1 sb',
    unaryCall_hook (ex_decision ex_rewrite) ex_original 0 "u" 100 0 0 0 (ex_state 1000 false None) =
      Ok (ex_original 0 "u" 100 0 0 0 s1) (add_event s1 (ev_original 100)) /\
    slice_buffers s1 !! 300 = Some sb' /\
    length sb' = 2 /\
    read_range (heap s1) (data sb') 2 = Some [42; 43] /\
    data sb' - ref_counter sb' = 1008 - 1000 /\
    read_range (heap s1) (ref_counter sb') (Z.to_nat (data sb' - ref_counter sb')) =
      read_range (heap (ex_state 1000 false None)) 1000 (Z.to_nat (1008 - 1000)) /\
    blocks s1 !! ref_counter sb' = Some (1008 - 1000 + 2) /\
    blocks s1 !! 1000 = None /\
    trace s1 = [ev_read_payload 1008 3; ev_on_unary_call "u" [9; 10; 11];
                ev_malloc (1008 - 1000 + 2) (ref_counter sb'); ev_free 1000].
Proof.
  apply (unaryCall_hook_rewrite _ _ 0 0 0 0 "u" (ex_state 1000 false None) 100 200 300
           (mk_slice_buffer 1000 1008 3) [9; 10; 11] (mk_request_data false (Some [42; 43]))
           [42; 43] 11); concrete.
Defined.

Lemma unaryCall_hook_malloc_failure_witness :
  exists s',
    unaryCall_hook (ex_decision ex_rewrite) ex_original 0 "u" 100 0 0 0 (ex_state 1000 true None) =
      Fault s' /\
    slice_buffers s' = slice_buffers (ex_state 1000 true None) /\
    heap s' = heap (ex_state 1000 true None) /\ blocks s' = blocks (ex_state 1000 true None) /\
    trace s' = [ev_read_payload 1008 3; ev_on_unary_call "u" [9; 10; 11];
                ev_malloc (uptr_add (header_size_used (ex_state 1000 true None)
                                       (mk_slice_buffer 1000 1008 3)) 2) 0].
Proof.
  apply (unaryCall_hook_malloc_failure _ _ 0 0 0 0 "u" (ex_state 1000 true None) 100 200 300
           (mk_slice_buffer 1000 1008 3) [9; 10; 11] (mk_request_data false (Some [42; 43]))
           [42; 43]); concrete.
Defined.

Lemma unaryCall_hook_header_size_witness :
  exists s1 sb',
    unaryCall_hook (ex_decision ex_rewrite) ex_original 0 "u" 100 0 0 0 (ex_state 1000 false None) =
      Ok (ex_original 0 "u" 100 0 0 0 s1) (add_event s1 (ev_original 100)) /\
    slice_buffers s1 !! 300 = Some sb' /\
    In (ev_malloc (uptr_sub 1008 1000 + 2) (ref_counter sb')) (trace s1) /\
    read_range (heap s1) (ref_counter sb') (Z.to_nat (uptr_sub 1008 1000)) =
      Some [1; 2; 3; 4; 5; 6; 7; 8] /\
    data sb' = ref_counter sb' + uptr_sub 1008 1000 /\
    ref_counter_struct_size s1 = Some (uptr_sub 1008 1000).
Proof.
  apply (unaryCall_hook_header_size _ _ 0 0 0 0 "u" (ex_state 1000 false None) 100 200 300
           (mk_slice_buffer 1000 1008 3) [9; 10; 11] (mk_request_data false (Some [42; 43]))
           [42; 43] [1; 2; 3; 4; 5; 6; 7; 8] 11); concrete.
Defined.

Lemma unaryCall_hook_null_buffer_witness :
  unaryCall_hook (ex_decision (Some (mk_request_data false None))) ex_original 0 "u" 100 0 0 0
    (ex_state 1000 false None) =
  Fault (add_event (add_event (ex_state 1000 false None) (ev_read_payload 1008 3))
           (ev_on_unary_call "u" [9; 10; 11])).
Proof.
  apply (unaryCall_hook_null_buffer _ _ 0 0 0 0 "u" (ex_state 1000 false None) 100 200 300
           (mk_slice_buffer 1000 1008 3) [9; 10; 11] (mk_request_data false None)); concrete.
Defined.

Lemma unaryCall_hook_rewrite_twice_witness :
  exists s1 s2 sb2,
    unaryCall_hook (ex_decision ex_rewrite) ex_original 0 "u" 100 0 0 0 (ex_state 1000 false None) =
      Ok (ex_original 0 "u" 100 0 0 0 s1) (add_event s1 (ev_original 100)) /\
    unaryCall_hook (ex_decision ex_rewrite) ex_original 0 "u" 100 0 0 0
      (add_event s1 (ev_original 100)) =
      Ok (ex_original 0 "u" 100 0 0 0 s2) (add_event s2 (ev_original 100)) /\
    slice_buffers s2 !! 300 = Some sb2 /\
    length sb2 = 2 /\ data sb2 = ref_counter sb2 + 8 /\
    read_range (heap s2) (data sb2) 2 = Some [42; 43] /\
    read_range (heap s2) (ref_counter sb2) 8 = Some [1; 2; 3; 4; 5; 6; 7; 8] /\
    blocks s2 = <[ref_counter sb2 := 8 + 2]> (delete 1000 (blocks (ex_state 1000 false None))).
Proof.
  apply (unaryCall_hook_rewrite_twice _ _ 0 0 0 0 "u" (ex_state 1000 false None) 100 200 300
           (mk_slice_buffer 1000 1008 3) [9; 10; 11] (mk_request_data false (Some [42; 43]))
           [42; 43] (mk_request_data false (Some [42; 43])) [42; 43]
           [1; 2; 3; 4; 5; 6; 7; 8] 11 8); try concrete.
  unfold ex_state. cbn [blocks next_block]. apply map_Forall_singleton. lia.
Defined.

(** With a failing allocator the rewrite faults in the header copy: the
    original is never reached, with or without the unmodified buffer. *)
Lemma unaryCall_hook_malloc_failure_faults :
  match unaryCall_hook (ex_decision ex_rewrite) ex_original 0 "u" 100 0 0 0
          (ex_state 1000 true None) with
  | Ok _ _ => False
  | Fault s' =>
      trace s' = [ev_read_payload 1008 3; ev_on_unary_call "u" [9; 10; 11]; ev_malloc 10 0] /\
      slice_buffers s' = slice_buffers (ex_state 1000 true None)
  end.
Proof. vm_compute. split; reflexivity. Qed.

(** Two rewrites in one process.  The second slice buffer has an 8-byte
    header ([2008 - 2000]), but the static still holds the first one's 4:
    its new block has 6 bytes, only 4 header bytes are copied, and the new
    data pointer is 4 bytes past the new block. *)
Lemma unaryCall_hook_rewrite_second_request :
  match unaryCall_hook (ex_decision ex_rewrite) ex_original 0 "u" 100 0 0 0 ex_two_requests with
  | Ok _ s1 =>
      match unaryCall_hook (ex_decision ex_rewrite) ex_original 0 "u" 101 0 0 0 s1 with
      | Ok _ s2 =>
          match slice_buffers s2 !! 301 with
          | Some sb' =>
              data sb' - ref_counter sb' = 4 /\
              read_range (heap s2) (ref_counter sb') (Z.to_nat (data sb' - ref_counter sb')) <>
                read_range (heap ex_two_requests) 2000 (Z.to_nat (2008 - 2000))
          | None => False
          end
      | Fault _ => False
      end
  | Fault _ => False
  end.
Proof. vm_compute. split; [reflexivity | discriminate]. Qed.

Lemma unaryCall_hook_header_size_second_request :
  match unaryCall_hook (ex_decision ex_rewrite) ex_original 0 "u" 100 0 0 0 ex_two_requests with
  | Ok _ s1 =>
      match unaryCall_hook (ex_decision ex_rewrite) ex_original 0 "u" 101 0 0 0 s1 with
      | Ok _ s2 =>
          slice_buffers ex_two_requests !! 301 = Some (mk_slice_buffer 2000 2008 3) /\
          trace s2 = [ev_read_payload 1004 2; ev_on_unary_call "u" [5; 6];
                      ev_malloc (4 + 2) 5000; ev_free 1000; ev_original 100;
                      ev_read_payload 2008 3; ev_on_unary_call "u" [29; 30; 31];
                      ev_malloc (4 + 2) 5007; ev_free 2000; ev_original 101]
      | Fault _ => False
      end
  | Fault _ => False
  end.
Proof. vm_compute. split; reflexivity. Qed.

End UnaryCallFacts.

(** * Properties of the file-status hook *)

Module FstatFacts.
Import Fstat.

(** ** The path buffer *)

Definition no_nul (l : list ascii) : Prop := Forall (fun c => c <> NUL) l.

Lemma digit_not_NUL d : 0 <= d < 10 -> digit d <> NUL.
Proof.
  intros Hd E. apply (f_equal nat_of_ascii) in E. unfold digit in E.
  assert (Hlt : (Z.to_nat d < 10)%nat) by (apply Nat2Z.inj_lt; rewrite Z2Nat.id; lia).
  rewrite nat_ascii_embedding in E by lia. change (nat_of_ascii NUL) with 0%nat in E. lia.
Qed.

Lemma dec_digits_no_nul fuel n acc : 0 <= n -> no_nul acc -> no_nul (dec_digits fuel n acc).
Proof.
  revert n acc. induction fuel as [|f IH]; intros n acc Hn Hacc; cbn; [done|].
  assert (Hd : no_nul (digit (n mod 10) :: acc)).
  { constructor; [apply digit_not_NUL; apply Z.mod_pos_bound; lia | done]. }
  destruct (n <? 10); [done|]. apply IH; [apply Z.div_pos; lia | done].
Qed.

Lemma dec_digits_length fuel k n acc :
  (1 <= k <= fuel)%nat -> 0 <= n < 10 ^ Z.of_nat k ->
  (List.length (dec_digits fuel n acc) <= k + List.length acc)%nat.
Proof.
  revert k n acc. induction fuel as [|f IH]; intros k n acc Hk Hn; [lia|]. cbn.
  destruct (Z.ltb_spec n 10); cbn; [lia|].
  destruct k as [|k]; [lia|].
  destruct k as [|k]; [cbn in Hn; lia|].
  specialize (IH (S k) (n / 10) (digit (n mod 10) :: acc)). cbn in IH.
  assert (Hpow : 10 ^ Z.of_nat (S (S k)) = 10 * 10 ^ Z.of_nat (S k)).
  { rewrite !Nat2Z.inj_succ, (Z.pow_succ_r 10 (Z.succ (Z.of_nat k))); lia. }
  enough (List.length (dec_digits f (n / 10) (digit (n mod 10) :: acc)) <= S k + S (List.length acc))%nat
    by lia.
  apply IH; [lia|]. split; [apply Z.div_pos; lia|].
  apply Z.div_lt_upper_bound; lia.
Qed.

Lemma proc_fd_path_no_nul fd : no_nul (proc_fd_path fd).
Proof.
  unfold proc_fd_path, format_d. apply Forall_app. split.
  { repeat constructor; cbn; discriminate. }
  destruct (Z.ltb_spec fd 0).
  - constructor; [discriminate|]. apply dec_digits_no_nul; [lia | constructor].
  - apply dec_digits_no_nul; [lia | constructor].
Qed.

Lemma proc_fd_path_length fd :
  0 <= fd < 2 ^ 31 -> (List.length (proc_fd_path fd) <= 24)%nat.
Proof.
  intros Hfd. unfold proc_fd_path, format_d.
  destruct (Z.ltb_spec fd 0); [lia|].
  rewrite length_app.
  pose proof (dec_digits_length 11 10 fd [] ltac:(lia) ltac:(cbn; lia)). cbn in *. lia.
Qed.

Lemma overwrite_prefix buf src :
  (List.length src <= List.length buf)%nat -> overwrite buf src = src ++ skipn (List.length src) buf.
Proof. intros H. unfold overwrite. by rewrite firstn_all2 by lia. Qed.

Lemma skipn_repeat_NUL n m : skipn n (repeat NUL m) = repeat NUL (m - n).
Proof.
  revert m. induction n as [|n IH]; intros m; cbn; [by rewrite Nat.sub_0_r|].
  destruct m; cbn; [done | apply IH].
Qed.

Lemma c_string_app q r : no_nul q -> c_string (q ++ NUL :: r) = Some q.
Proof.
  induction 1 as [|c q Hc Hq IH]; cbn.
  - reflexivity.
  - destruct (ascii_dec c NUL); [done|]. by rewrite IH.
Qed.

Lemma snprintf_path q :
  (List.length q <= 255)%nat ->
  snprintf (repeat NUL 256) 256 q = q ++ repeat NUL (256 - List.length q).
Proof.
  intros Hq. unfold snprintf. cbn [Nat.sub].
  rewrite firstn_all2 by lia. rewrite overwrite_prefix by (rewrite length_app, repeat_length; cbn; lia).
  rewrite skipn_repeat_NUL, length_app. cbn [List.length].
  rewrite <- app_assoc. cbn [app]. f_equal.
  replace (256 - List.length q)%nat with (S (256 - (List.length q + 1)))%nat by lia.
  reflexivity.
Qed.

Lemma readlink_path q p :
  (List.length q <= List.length p < 256)%nat ->
  overwrite (q ++ repeat NUL (256 - List.length q)) p = p ++ repeat NUL (256 - List.length p).
Proof.
  intros Hp. rewrite overwrite_prefix by (rewrite length_app, repeat_length; lia).
  rewrite List.skipn_app, skipn_all2 by lia. cbn [app].
  rewrite skipn_repeat_NUL. f_equal. f_equal. lia.
Qed.

(** ** Substrings *)

Lemma is_prefix_length pat s : is_prefix pat s = true -> (List.length pat <= List.length s)%nat.
Proof.
  revert s. induction pat as [|c pat IH]; intros [|d s] H; cbn in *; try lia; try discriminate.
  destruct (ascii_dec c d); [|discriminate]. specialize (IH s H). lia.
Qed.

Lemma contains_length s pat : contains s pat = true -> (List.length pat <= List.length s)%nat.
Proof.
  induction s as [|c s IH]; cbn; intros H.
  - rewrite orb_false_r in H. by apply is_prefix_length in H.
  - apply orb_true_iff in H as [H|H].
    + by apply is_prefix_length in H.
    + specialize (IH H). lia.
Qed.

(** A marker that does not start with [/] lies after the leading [/] of an
    absolute path. *)
Lemma abs_path_contains p pat :
  abs_path p = true -> contains p pat = true -> head pat <> Some "/"%char ->
  no_nul p /\ (S (List.length pat) <= List.length p)%nat.
Proof.
  intros Habs Hc Hhd. destruct p as [|c rest]; [discriminate|].
  cbn in Habs. destruct (ascii_dec c "/"%char) as [->|]; [|discriminate].
  cbn in Habs. split.
  - constructor; [discriminate|]. apply List.Forall_forall. intros x Hx E. subst x.
    apply (proj1 (List.forallb_forall _ _) Habs) in Hx.
    destruct (ascii_dec NUL NUL); [discriminate | congruence].
  - cbn in Hc. apply orb_true_iff in Hc as [Hc|Hc].
    + destruct pat as [|d pat]; cbn in *; [lia|].
      destruct (ascii_dec d "/"%char) as [->|]; [done | discriminate].
    + apply contains_length in Hc. cbn. lia.
Qed.

Lemma c_string_padded q :
  no_nul q -> (List.length q < 256)%nat -> c_string (q ++ repeat NUL (256 - List.length q)) = Some q.
Proof.
  intros Hq Hlen. replace (256 - List.length q)%nat with (S (255 - List.length q)) by lia.
  apply c_string_app, Hq.
Qed.

(** ** The unresolved path *)

Lemma dec_digits_length_le fuel n acc :
  (List.length (dec_digits fuel n acc) <= fuel + List.length acc)%nat.
Proof.
  revert n acc. induction fuel as [|f IH]; intros n acc; cbn [dec_digits]; [lia|].
  destruct (n <? 10); cbn [List.length]; [lia|].
  specialize (IH (n / 10) (digit (n mod 10) :: acc)). cbn [List.length] in IH. lia.
Qed.

(** Whatever the descriptor, ["/proc/self/fd/<fd>"] fits the buffer. *)
Lemma proc_fd_path_length_le fd : (List.length (proc_fd_path fd) <= 26)%nat.
Proof.
  unfold proc_fd_path, format_d. rewrite length_app.
  change (List.length (list_ascii_of_string "/proc/self/fd/")) with 14%nat.
  destruct (fd <? 0); cbn [List.length].
  - pose proof (dec_digits_length_le 11 (- fd) []) as H. cbn [List.length] in H. lia.
  - pose proof (dec_digits_length_le 11 fd []) as H. cbn [List.length] in H. lia.
Qed.

Definition decimal_char (c : ascii) : Prop := exists d, 0 <= d < 10 /\ c = digit d.

Lemma dec_digits_chars fuel n acc c :
  In c (dec_digits fuel n acc) -> In c acc \/ decimal_char c.
Proof.
  assert (Hd : forall n, decimal_char (digit (n mod 10))).
  { intros m. exists (m mod 10). split; [apply Z.mod_pos_bound; lia | reflexivity]. }
  revert n acc. induction fuel as [|f IH]; intros n acc H; cbn [dec_digits] in H; [auto|].
  destruct (n <? 10).
  - destruct H as [<-|H]; auto.
  - apply IH in H as [[<-|H]|H]; auto.
Qed.

Lemma proc_fd_path_chars fd c :
  In c (proc_fd_path fd) ->
  In c (list_ascii_of_string "/proc/self/fd/") \/ c = "-"%char \/ decimal_char c.
Proof.
  unfold proc_fd_path, format_d. intros H. apply in_app_or in H as [H|H]; [auto|].
  destruct (fd <? 0).
  - destruct H as [<-|H]; [auto|]. apply dec_digits_chars in H as [[]|H]; auto.
  - apply dec_digits_chars in H as [[]|H]; auto.
Qed.

Lemma decimal_char_code c : decimal_char c -> (48 <= nat_of_ascii c <= 57)%nat.
Proof.
  intros (d & Hd & ->). unfold digit.
  assert (Hlt : (Z.to_nat d < 10)%nat) by (apply Nat2Z.inj_lt; rewrite Z2Nat.id; lia).
  rewrite nat_ascii_embedding by lia. lia.
Qed.

Lemma is_prefix_In pat s c : is_prefix pat s = true -> In c pat -> In c s.
Proof.
  revert s. induction pat as [|d pat IH]; intros [|e s] H Hc; cbn in *; try easy.
  destruct (ascii_dec d e) as [<-|]; [|discriminate].
  destruct Hc as [<-|Hc]; [auto | right; eauto].
Qed.

Lemma contains_In s pat c : contains s pat = true -> In c pat -> In c s.
Proof.
  induction s as [|e s IH]; cbn; intros H Hc.
  - rewrite orb_false_r in H. exact (is_prefix_In _ _ _ H Hc).
  - apply orb_true_iff in H as [H|H]; [exact (is_prefix_In _ _ _ H Hc) | right; auto].
Qed.

(** A character of a marker that ["/proc/self/fd/<fd>"] never holds. *)
Lemma proc_fd_path_lacks fd c :
  ~ In c (list_ascii_of_string "/proc/self/fd/") -> c <> "-"%char ->
  (57 < nat_of_ascii c)%nat -> ~ In c (proc_fd_path fd).
Proof.
  intros Hp Hm Hc H. apply proc_fd_path_chars in H as [H|[H|H]]; [done | done |].
  apply decimal_char_code in H. lia.
Qed.

Lemma proc_fd_path_no_markers fd :
  contains (proc_fd_path fd) metrics_marker = false /\
  contains (proc_fd_path fd) bitmoji_marker = false.
Proof.
  split; apply not_true_is_false; intros H.
  - apply (contains_In _ _ "z"%char) in H; [| cbn; repeat (first [left; reflexivity | right])].
    revert H. apply proc_fd_path_lacks;
      [cbn; intuition discriminate | discriminate | apply Nat.ltb_lt; reflexivity].
  - apply (contains_In _ _ "m"%char) in H; [| cbn; repeat (first [left; reflexivity | right])].
    revert H. apply proc_fd_path_lacks;
      [cbn; intuition discriminate | discriminate | apply Nat.ltb_lt; reflexivity].
Qed.

(** ** Runs of the hook *)

Section Runs.

Variable fstat_original : fs_state -> Z -> Z * list Z.

(** When the descriptor's link resolves to a NUL-free path [p] that is at
    least as long as ["/proc/self/fd/<fd>"] and shorter than the 256-byte
    buffer, the hook works on [p] itself. *)
Lemma fstat_hook_resolved fd s p :
  lookup_link (links s) (proc_fd_path fd) = Some p -> no_nul p ->
  (List.length (proc_fd_path fd) <= List.length p < 256)%nat ->
  fstat_hook fstat_original fd s =
    if disable_metrics (native_config s) && contains p metrics_marker then Ok (-1) (unlink s p)
    else if disable_bitmoji (native_config s) && contains p bitmoji_marker then Ok (-1) s
    else let '(r, st) := fstat_original s fd in
         Ok r (mk_fs_state (links s) (files s) st (native_config s)
                 (fs_trace s ++ [ev_fstat_original fd])).
Proof.
  intros Hl Hp Hlen. unfold fstat_hook.
  rewrite snprintf_path by lia. unfold readlink_into.
  rewrite c_string_padded by (apply proc_fd_path_no_nul || lia).
  rewrite Hl, readlink_path by lia.
  rewrite c_string_padded by (assumption || lia).
  reflexivity.
Qed.

Lemma resolved_metrics_path fd p :
  0 <= fd < 2 ^ 31 -> abs_path p = true -> contains p metrics_marker = true ->
  no_nul p /\ (List.length (proc_fd_path fd) <= List.length p)%nat.
Proof.
  intros Hfd Habs Hc.
  destruct (abs_path_contains p metrics_marker Habs Hc) as [Hp Hlen]; [discriminate|].
  pose proof (proc_fd_path_length fd Hfd). cbn in Hlen. split; [done | lia].
Qed.

Lemma resolved_bitmoji_path fd p :
  0 <= fd < 2 ^ 31 -> abs_path p = true -> contains p bitmoji_marker = true ->
  no_nul p /\ (List.length (proc_fd_path fd) <= List.length p)%nat.
Proof.
  intros Hfd Habs Hc.
  destruct (abs_path_contains p bitmoji_marker Habs Hc) as [Hp Hlen]; [discriminate|].
  pose proof (proc_fd_path_length fd Hfd). cbn in Hlen. split; [done | lia].
Qed.

(** A link target [p] with no NUL, shorter than the buffer, is written
    over the start of ["/proc/self/fd/N"] and the NUL padding: the C string
    read back is [p] and whatever of the descriptor path is left after it. *)
Lemma resolved_name_link fd s p :
  lookup_link (links s) (proc_fd_path fd) = Some p -> no_nul p -> (List.length p < 256)%nat ->
  resolved_name fd s = Some (p ++ skipn (List.length p) (proc_fd_path fd)).
Proof.
  intros Hl Hp Hlen. pose proof (proc_fd_path_length_le fd) as Hq.
  unfold resolved_name. rewrite snprintf_path by lia. unfold readlink_into.
  rewrite c_string_padded by (apply proc_fd_path_no_nul || lia).
  rewrite Hl. unfold overwrite.
  rewrite length_app, repeat_length, firstn_all2 by lia.
  rewrite List.skipn_app, skipn_repeat_NUL, app_assoc.
  replace (256 - List.length (proc_fd_path fd) - (List.length p - List.length (proc_fd_path fd)))%nat
    with (256 - List.length (p ++ skipn (List.length p) (proc_fd_path fd)))%nat
    by (rewrite length_app, length_skipn; lia).
  apply c_string_padded.
  - apply Forall_app. split; [exact Hp|]. apply (Forall_drop _ (List.length p)), proc_fd_path_no_nul.
  - rewrite length_app, length_skipn. lia.
Qed.

(** C7 (amended): for a descriptor (a non-negative [int]) whose resolved
    path [p] is an absolute path shorter than the hook's 256-byte buffer:
    when [disable_metrics] is set and [p] contains
    ["files/blizzardv2/queues"], the hook unlinks [p] and returns -1 without
    invoking the original [fstat]. *)
Theorem fstat_hook_metrics fd s p :
  0 <= fd < 2 ^ 31 -> lookup_link (links s) (proc_fd_path fd) = Some p ->
  abs_path p = true -> (List.length p < 256)%nat ->
  disable_metrics (native_config s) = true -> contains p metrics_marker = true ->
  fstat_hook fstat_original fd s = Ok (-1) (unlink s p) /\
  ~ In p (files (unlink s p)) /\
  fs_trace (unlink s p) = fs_trace s ++ [ev_unlink p].
Proof.
  intros Hfd Hl Habs Hlen Hdm Hc.
  destruct (resolved_metrics_path fd p Hfd Habs Hc) as [Hp Hproc].
  split; [| split].
  - rewrite (fstat_hook_resolved fd s p) by (done || lia). by rewrite Hdm, Hc.
  - cbn. rewrite filter_In. intros [_ Hin].
    destruct (List.list_eq_dec ascii_dec p p); [discriminate | done].
  - reflexivity.
Qed.

(** Under the same conditions on the descriptor and its path as for the
    metrics branch, when that branch does not fire, [disable_bitmoji] is set
    and [p] contains ["com.snap.file_manager_4_SCContent"], the hook
    returns -1 and the state is unchanged: nothing is deleted and the
    original [fstat] is not invoked. *)
Theorem fstat_hook_bitmoji fd s p :
  0 <= fd < 2 ^ 31 -> lookup_link (links s) (proc_fd_path fd) = Some p ->
  abs_path p = true -> (List.length p < 256)%nat ->
  disable_metrics (native_config s) && contains p metrics_marker = false ->
  disable_bitmoji (native_config s) = true -> contains p bitmoji_marker = true ->
  fstat_hook fstat_original fd s = Ok (-1) s.
Proof.
  intros Hfd Hl Habs Hlen Hm Hdb Hc.
  destruct (resolved_bitmoji_path fd p Hfd Habs Hc) as [Hp Hproc].
  rewrite (fstat_hook_resolved fd s p) by (done || lia). by rewrite Hm, Hdb, Hc.
Qed.

(** C9: on every path that does not forward, the hook returns -1 and the
    caller's [struct stat] is as before; only a run that invokes the
    original [fstat] changes it, to what the original wrote.  A faulting
    run changes nothing. *)
Theorem fstat_hook_stat_buf fd s :
  match fstat_hook fstat_original fd s with
  | Ok r s' =>
      (r = -1 /\ stat_buf s' = stat_buf s /\ (s' = s \/ exists p, s' = unlink s p)) \/
      (fstat_original s fd = (r, stat_buf s') /\
       fs_trace s' = fs_trace s ++ [ev_fstat_original fd])
  | Fault s' => s' = s
  end.
Proof.
  unfold fstat_hook.
  destruct (readlink_into s _) as [name|]; [|reflexivity].
  destruct (c_string name) as [fileName|]; [|reflexivity].
  destruct (disable_metrics (native_config s) && contains fileName metrics_marker).
  { left. repeat split. right. eauto. }
  destruct (disable_bitmoji (native_config s) && contains fileName bitmoji_marker).
  { left. auto. }
  destruct (fstat_original s fd) as [r st] eqn:E. right. auto.
Qed.

(** A descriptor [readlink] cannot resolve (closed, or not in the link
    table) leaves ["/proc/self/fd/<fd>"] in the buffer, which holds neither
    marker: whatever the flags, the call goes to the original [fstat]. *)
Theorem fstat_hook_unresolved fd s :
  lookup_link (links s) (proc_fd_path fd) = None ->
  fstat_hook fstat_original fd s =
    let '(r, st) := fstat_original s fd in
    Ok r (mk_fs_state (links s) (files s) st (native_config s)
            (fs_trace s ++ [ev_fstat_original fd])).
Proof.
  intros Hl. pose proof (proc_fd_path_length_le fd) as Hlen.
  destruct (proc_fd_path_no_markers fd) as [Hm Hb].
  unfold fstat_hook. rewrite snprintf_path by lia. unfold readlink_into.
  rewrite c_string_padded by (apply proc_fd_path_no_nul || lia).
  rewrite Hl. cbv beta iota.
  rewrite c_string_padded by (apply proc_fd_path_no_nul || lia).
  rewrite Hm, Hb, !andb_false_r. reflexivity.
Qed.

(** With both flags unset the hook is transparent: every call that does
    not fault is forwarded, returns the original's result and deletes
    nothing. *)
Theorem fstat_hook_flags_off fd s :
  disable_metrics (native_config s) = false -> disable_bitmoji (native_config s) = false ->
  match fstat_hook fstat_original fd s with
  | Ok r s' =>
      fstat_original s fd = (r, stat_buf s') /\ files s' = files s /\ links s' = links s /\
      fs_trace s' = fs_trace s ++ [ev_fstat_original fd]
  | Fault s' => s' = s
  end.
Proof.
  intros Hm Hb. unfold fstat_hook.
  destruct (readlink_into s _) as [name|]; [|reflexivity].
  destruct (c_string name) as [fileName|]; [|reflexivity].
  rewrite Hm, Hb. cbn [andb]. destruct (fstat_original s fd) as [r st]. cbn. auto.
Qed.

(** The file the hook deletes.  It deletes one only with [disable_metrics]
    set, and then exactly the path it resolved the descriptor to, which
    contains ["files/blizzardv2/queues"]; a fault leaves the state as it
    was.  For a link target [p] with no NUL that is shorter than the
    buffer, that resolved path is [p] followed by what [p] did not
    overwrite of ["/proc/self/fd/N"] ([readlink] adds no terminator): [p]
    itself once [p] is at least as long. *)
Theorem fstat_hook_deletes_only_queues fd s :
  match fstat_hook fstat_original fd s with
  | Ok _ s' =>
      files s' = files s \/
      (disable_metrics (native_config s) = true /\
       exists q, resolved_name fd s = Some q /\ contains q metrics_marker = true /\ s' = unlink s q)
  | Fault s' => s' = s
  end /\
  (forall p, lookup_link (links s) (proc_fd_path fd) = Some p -> no_nul p ->
     (List.length p < 256)%nat ->
     resolved_name fd s = Some (p ++ skipn (List.length p) (proc_fd_path fd))).
Proof.
  split.
  - unfold fstat_hook, resolved_name.
    destruct (readlink_into s _) as [name|]; [|reflexivity].
    destruct (c_string name) as [fileName|]; [|reflexivity].
    destruct (disable_metrics (native_config s) && contains fileName metrics_marker) eqn:E.
    { apply andb_true_iff in E as [Hm Hc]. right. eauto. }
    destruct (disable_bitmoji (native_config s) && contains fileName bitmoji_marker);
      [left; reflexivity|].
    destruct (fstat_original s fd). left. reflexivity.
  - intros p Hl Hp Hlen. apply resolved_name_link; assumption.
Qed.

End Runs.

(** ** Concrete runs *)

Lemma fstat_hook_metrics_witness :
  fstat_hook ex_fstat_original 7 (ex_fs (mk_config false true) ex_queue_file) =
    Ok (-1) (unlink (ex_fs (mk_config false true) ex_queue_file) ex_queue_file) /\
  ~ In ex_queue_file (files (unlink (ex_fs (mk_config false true) ex_queue_file) ex_queue_file)) /\
  fs_trace (unlink (ex_fs (mk_config false true) ex_queue_file) ex_queue_file) =
    fs_trace (ex_fs (mk_config false true) ex_queue_file) ++ [ev_unlink ex_queue_file].
Proof.
  apply (fstat_hook_metrics ex_fstat_original 7 (ex_fs (mk_config false true) ex_queue_file)
           ex_queue_file); solve [lia | vm_compute; reflexivity | apply Nat.ltb_lt; vm_compute; reflexivity].
Defined.

Lemma fstat_hook_bitmoji_witness :
  fstat_hook ex_fstat_original 7 (ex_fs (mk_config true true) ex_content_file) =
    Ok (-1) (ex_fs (mk_config true true) ex_content_file).
Proof.
  apply (fstat_hook_bitmoji ex_fstat_original 7 (ex_fs (mk_config true true) ex_content_file)
           ex_content_file); solve [lia | vm_compute; reflexivity | apply Nat.ltb_lt; vm_compute; reflexivity].
Defined.

Lemma fstat_hook_unresolved_witness :
  fstat_hook ex_fstat_original 8 (ex_fs (mk_config true true) ex_queue_file) =
    let '(r, st) := ex_fstat_original (ex_fs (mk_config true true) ex_queue_file) 8 in
    Ok r (mk_fs_state (links (ex_fs (mk_config true true) ex_queue_file))
            (files (ex_fs (mk_config true true) ex_queue_file)) st (mk_config true true)
            (fs_trace (ex_fs (mk_config true true) ex_queue_file) ++ [ev_fstat_original 8])).
Proof.
  apply (fstat_hook_unresolved ex_fstat_original 8 (ex_fs (mk_config true true) ex_queue_file)).
  vm_compute. reflexivity.
Defined.

Lemma fstat_hook_deletes_only_queues_witness :
  resolved_name 7 (ex_fs (mk_config false true) ex_queue_file) =
    Some (ex_queue_file ++ skipn (List.length ex_queue_file) (proc_fd_path 7)).
Proof.
  apply (proj2 (fstat_hook_deletes_only_queues ex_fstat_original 7
                  (ex_fs (mk_config false true) ex_queue_file)) ex_queue_file).
  - vm_compute. reflexivity.
  - apply (resolved_metrics_path 7); [lia | vm_compute; reflexivity..].
  - apply Nat.ltb_lt. vm_compute. reflexivity.
Defined.

Lemma fstat_hook_flags_off_witness :
  match fstat_hook ex_fstat_original 7 (ex_fs (mk_config false false) ex_queue_file) with
  | Ok r s' =>
      ex_fstat_original (ex_fs (mk_config false false) ex_queue_file) 7 = (r, stat_buf s') /\
      files s' = files (ex_fs (mk_config false false) ex_queue_file) /\
      links s' = links (ex_fs (mk_config false false) ex_queue_file) /\
      fs_trace s' = fs_trace (ex_fs (mk_config false false) ex_queue_file) ++ [ev_fstat_original 7]
  | Fault s' => s' = ex_fs (mk_config false false) ex_queue_file
  end.
Proof.
  apply (fstat_hook_flags_off ex_fstat_original 7 (ex_fs (mk_config false false) ex_queue_file));
    reflexivity.
Defined.

(** A 256-character queue path fills the buffer with no terminating NUL:
    building [fileName] reads past the array, and the hook neither deletes
    the file nor returns -1. *)
Lemma fstat_hook_metrics_long_path :
  lookup_link (links (ex_fs (mk_config false true) (ex_long_path metrics_marker))) (proc_fd_path 7) =
    Some (ex_long_path metrics_marker) /\
  abs_path (ex_long_path metrics_marker) = true /\
  contains (ex_long_path metrics_marker) metrics_marker = true /\
  fstat_hook ex_fstat_original 7 (ex_fs (mk_config false true) (ex_long_path metrics_marker)) =
    Fault (ex_fs (mk_config false true) (ex_long_path metrics_marker)).
Proof. vm_compute. repeat split. Qed.

(** C8 (code bug): a descriptor whose resolved path is 256 characters
    long and contains ["com.snap.file_manager_4_SCContent"], with
    [disable_bitmoji] set and [disable_metrics] off.  [readlink] is handed
    [sizeof(name)], the whole array, so the 256-character target fills it
    and overwrites the NUL left by [memset]: [std::string(name)] reads past
    the array, and the hook does not return -1. *)
Lemma fstat_hook_bitmoji_long_path :
  lookup_link (links (ex_fs (mk_config true false) (ex_long_path bitmoji_marker))) (proc_fd_path 7) =
    Some (ex_long_path bitmoji_marker) /\
  abs_path (ex_long_path bitmoji_marker) = true /\
  contains (ex_long_path bitmoji_marker) bitmoji_marker = true /\
  fstat_hook ex_fstat_original 7 (ex_fs (mk_config true false) (ex_long_path bitmoji_marker)) =
    Fault (ex_fs (mk_config true false) (ex_long_path bitmoji_marker)).
Proof. vm_compute. repeat split. Qed.

End FstatFacts.

(** * Properties of initialisation and configuration *)

Module NativeFacts.
Import Native.

(** The statics a hook reads are set before it is installed: the [fstat]
    hook reads [native_config], the unaryCall hook calls back through
    [native_lib_object] and is only installed after the [fstat] hook. *)
Definition wired (p : process) : Prop :=
  (fstat_hooked p = true -> native_config p <> None) /\
  (unaryCall_hooked p = true -> fstat_hooked p = true /\ native_lib_object p <> None).

Section Runs.

Variables (client_base unaryCall_func : Z) (new_native_config : Fstat.native_config_t).

Lemma step_wired c p p' :
  wired p -> step client_base unaryCall_func new_native_config c p = Some p' -> wired p'.
Proof.
  intros [H1 H2] Hs. destruct c as [clazz|b m]; cbn in Hs.
  - injection Hs as <-. unfold init.
    destruct (client_base =? 0), (unaryCall_func =? 0); cbn;
      split; intros Hx; try split; first [discriminate | reflexivity | exact (proj1 (H2 Hx))].
  - unfold load_config in Hs. destruct (native_config p); [|discriminate].
    injection Hs as <-. split; cbn; [discriminate | exact H2].
Qed.

Lemma run_wired cs p p' :
  wired p -> run client_base unaryCall_func new_native_config cs p = Some p' -> wired p'.
Proof.
  revert p. induction cs as [|c cs IH]; intros p Hw Hr; cbn in Hr.
  - by injection Hr as <-.
  - destruct (step client_base unaryCall_func new_native_config c p) as [p1|] eqn:E;
      [|discriminate].
    exact (IH p1 (step_wired c p p1 Hw E) Hr).
Qed.

Lemma run_keeps_fstat_hook cs p p' :
  fstat_hooked p = true -> run client_base unaryCall_func new_native_config cs p = Some p' ->
  fstat_hooked p' = true.
Proof.
  revert p. induction cs as [|[clazz|b m] cs IH]; intros p Hf Hr; cbn in Hr.
  - by injection Hr as <-.
  - apply (IH (init client_base unaryCall_func new_native_config clazz p)); [|exact Hr].
    unfold init. destruct (client_base =? 0), (unaryCall_func =? 0); cbn; first [exact Hf | reflexivity].
  - unfold load_config in Hr. destruct (native_config p); [|discriminate].
    eapply IH; [|exact Hr]. exact Hf.
Qed.

(** Whatever sequence of [init] and [loadConfig] calls Java makes, once a
    hook is installed the statics it reads are set, and the unaryCall hook
    is never installed without the [fstat] hook. *)
Theorem hooks_wired cs p :
  run client_base unaryCall_func new_native_config cs initial_process = Some p ->
  (fstat_hooked p = true -> native_config p <> None) /\
  (unaryCall_hooked p = true -> fstat_hooked p = true /\ native_lib_object p <> None).
Proof.
  intros Hr. apply (run_wired cs initial_process p); [|exact Hr].
  split; cbn; discriminate.
Qed.

(** [loadConfig] writes through [native_config] with no check: a call that
    comes before the first [init] faults. *)
Theorem load_config_before_init cs1 cs2 b m :
  forallb (fun c => negb (is_init c)) cs1 = true ->
  run client_base unaryCall_func new_native_config (cs1 ++ call_load_config b m :: cs2)
    initial_process = None.
Proof.
  generalize initial_process (eq_refl : native_config initial_process = None).
  intros p0 Hp0. revert p0 Hp0.
  induction cs1 as [|[clazz|b' m'] cs1 IH]; intros p Hp Hall; cbn in *.
  - unfold load_config. by rewrite Hp.
  - discriminate.
  - unfold load_config. by rewrite Hp.
Qed.

(** When [libclient.so] is not found, [init] returns before hooking
    anything: no sequence of calls installs either hook. *)
Theorem no_client_no_hooks cs p :
  client_base = 0 ->
  run client_base unaryCall_func new_native_config cs initial_process = Some p ->
  fstat_hooked p = false /\ unaryCall_hooked p = false.
Proof.
  intros Hb. generalize initial_process (conj (eq_refl : fstat_hooked initial_process = false)
                                            (eq_refl : unaryCall_hooked initial_process = false)).
  intros p0 Hp0. revert p0 Hp0.
  induction cs as [|[clazz|b m] cs IH]; intros p0 [Hf Hu] Hr; cbn in Hr.
  - injection Hr as <-. auto.
  - apply (IH (init client_base unaryCall_func new_native_config clazz p0)); [|exact Hr].
    unfold init. rewrite Hb. cbn. auto.
  - unfold load_config in Hr. destruct (native_config p0); [|discriminate].
    eapply IH; [|exact Hr]. cbn. auto.
Qed.

(** When [libclient.so] is found but the unaryCall signature is not, the
    failure only costs the unaryCall hook: the [fstat] hook is installed
    exactly when some [init] has run. *)
Theorem no_signature_fstat_only cs p :
  client_base <> 0 -> unaryCall_func = 0 ->
  run client_base unaryCall_func new_native_config cs initial_process = Some p ->
  unaryCall_hooked p = false /\ fstat_hooked p = existsb is_init cs.
Proof.
  intros Hb Hu.
  enough (H : forall p0, unaryCall_hooked p0 = false ->
            run client_base unaryCall_func new_native_config cs p0 = Some p ->
            unaryCall_hooked p = false /\ fstat_hooked p = fstat_hooked p0 || existsb is_init cs)
    by (intros Hr; exact (H initial_process eq_refl Hr)).
  induction cs as [|[clazz|b m] cs IH]; intros p0 Hu0 Hr; cbn in Hr |- *.
  - injection Hr as <-. rewrite orb_false_r. auto.
  - assert (Hi : init client_base unaryCall_func new_native_config clazz p0 =
                 mk_process (Some new_native_config) (Some clazz) true (unaryCall_hooked p0)).
    { unfold init. rewrite (proj2 (Z.eqb_neq _ _) Hb), Hu. reflexivity. }
    rewrite Hi in Hr. destruct (IH (mk_process (Some new_native_config) (Some clazz) true (unaryCall_hooked p0)) Hu0 Hr) as [H1 H2]. rewrite orb_true_r.
    split; [exact H1|]. rewrite H2. reflexivity.
  - unfold load_config in Hr. destruct (native_config p0); [|discriminate].
    apply IH in Hr; [exact Hr | exact Hu0].
Qed.

End Runs.

(** ** Concrete runs *)

Lemma hooks_wired_witness :
  (true = true -> Some (Fstat.mk_config true true) <> None) /\
  (true = true -> true = true /\ Some 1 <> None).
Proof.
  apply (hooks_wired 4096 8192 (Fstat.mk_config false false)
           [call_init 1; call_load_config true true]
           (mk_process (Some (Fstat.mk_config true true)) (Some 1) true true)).
  reflexivity.
Defined.

Lemma load_config_before_init_witness :
  run 4096 8192 (Fstat.mk_config false false)
    ([call_load_config false false] ++ call_load_config true true :: [call_init 1])
    initial_process = None.
Proof.
  apply (load_config_before_init 4096 8192 (Fstat.mk_config false false)
           [call_load_config false false] [call_init 1] true true).
  reflexivity.
Defined.

Lemma no_client_no_hooks_witness : false = false /\ false = false.
Proof.
  apply (no_client_no_hooks 0 8192 (Fstat.mk_config false false)
           [call_init 1; call_load_config true true]
           (mk_process (Some (Fstat.mk_config true true)) (Some 1) false false));
    reflexivity.
Defined.

Lemma no_signature_fstat_only_witness :
  false = false /\ true = existsb is_init [call_init 1; call_load_config true true].
Proof.
  apply (no_signature_fstat_only 4096 0 (Fstat.mk_config false false)
           [call_init 1; call_load_config true true]
           (mk_process (Some (Fstat.mk_config true true)) (Some 1) true false));
    try reflexivity; discriminate.
Defined.

End NativeFacts.
